(** * YTGrabber: URL classification, cookie jar and command construction

    A shallow embedding of [main.py] (class [YTGrabber]).  Python strings are
    [string]s, argument vectors are [list string], the orchestrator object and
    the operating system it talks to are an explicit [World] threaded through
    a small state-and-exception monad.  Everything the program obtains from
    outside (subprocess results, the clock, the random generator, temporary
    file names) is read from an [Env] of oracles, so every theorem holds for
    all behaviours of the environment.

    A character is a code point below 256; every pattern the program looks
    for is ASCII.  Terminal output ([print], [sys.stdout.write]) is not part
    of [World]: no function modelled here branches on it.  Writing the
    cookie jar is taken to succeed. *)

From Stdlib Require Import ZArith Ascii String List Bool Lia.
From stdpp Require Import base option strings pretty gmap.
Import ListNotations.

Local Open Scope string_scope.
Local Open Scope list_scope.

(** ** Python string primitives *)

Module Py.

(** [s.startswith(p)] *)
Fixpoint startswith (p s : string) : bool :=
  match p, s with
  | EmptyString, _ => true
  | String _ _, EmptyString => false
  | String a p', String b s' => Ascii.eqb a b && startswith p' s'
  end.

(** [s.startswith((p1, p2, ...))] with a tuple of prefixes *)
Definition startswith_any (ps : list string) (s : string) : bool :=
  existsb (fun p => startswith p s) ps.

(** [p in s] on strings: some suffix of [s] starts with [p] *)
Fixpoint contains (p s : string) : bool :=
  startswith p s ||
  match s with
  | EmptyString => false
  | String _ s' => contains p s'
  end.

(** [any(p in s for p in ps)] *)
Definition contains_any (ps : list string) (s : string) : bool :=
  existsb (fun p => contains p s) ps.

(** [c.isspace()] for the code points below 256 *)
Definition isspace (c : ascii) : bool :=
  let n := nat_of_ascii c in
  (((9 <=? n) && (n <=? 13)) || ((28 <=? n) && (n <=? 32))
   || (n =? 133) || (n =? 160))%nat.

Fixpoint lstrip (s : string) : string :=
  match s with
  | EmptyString => EmptyString
  | String c s' => if isspace c then lstrip s' else s
  end.

Definition rstrip (s : string) : string :=
  String.rev (lstrip (String.rev s)).

(** [s.strip()] *)
Definition strip (s : string) : string := lstrip (rstrip s).

(** Truthiness of a [str]: only the empty string is false. *)
Definition truthy (s : string) : bool :=
  match s with EmptyString => false | String _ _ => true end.

(** [''.join(parts)] *)
Definition join (parts : list string) : string :=
  fold_right String.append EmptyString parts.

End Py.

(** ** The environment and the state of a run *)

(** What a child process did.  [Raised] stands for any [Exception] thrown
    inside the [try] block that launches the process and consumes its
    output; [Exited out rc] is a process that ran to completion. *)
Inductive proc_outcome : Type :=
| Raised
| Exited (out : string) (returncode : Z).

Record Env : Type := mkEnv {
  (** outcome of launching an argument vector, given the launches so far *)
  spawn : list (list string) -> list string -> proc_outcome;
  (** the n-th number drawn from the random generator *)
  random_nat : nat -> nat;
  (** [datetime.now().strftime(fmt)] at the n-th reading of the clock *)
  strftime_now : nat -> string -> string;
  (** [int(time.time())] at the n-th reading of the clock *)
  time_now : nat -> Z;
  (** directory-and-random-name part of the path [tempfile.mktemp] picks *)
  mktemp_stem : nat -> string
}.

Record World : Type := mkWorld {
  (** [self.cookie_file] *)
  cookie_file : option string;
  (** regular files on disk: path to content *)
  files : gmap string string;
  (** argument vectors of the child processes launched so far, oldest first *)
  launched : list (list string);
  (** how many readings of the clock and the random generator were made *)
  ticks : nat
}.

Inductive exn : Type :=
| KeyError (key : string).

Inductive result (A : Type) : Type :=
| Ok (a : A)
| Raise (e : exn).
Arguments Ok {A} a.
Arguments Raise {A} e.

Definition M (A : Type) : Type := World -> result A * World.

Definition ret {A} (a : A) : M A := fun w => (Ok a, w).

Definition raise {A} (e : exn) : M A := fun w => (Raise e, w).

Definition bind {A B} (m : M A) (k : A -> M B) : M B :=
  fun w =>
    match m w with
    | (Ok a, w') => k a w'
    | (Raise e, w') => (Raise e, w')
    end.

Notation "'let*' x ':=' m 'in' k" := (bind m (fun x => k))
  (at level 10, x name, m at level 100, k at level 200).

Definition get_world : M World := fun w => (Ok w, w).

Definition set_cookie_file (p : string) : M unit :=
  fun w => (Ok tt, mkWorld (Some p) (files w) (launched w) (ticks w)).

(** [open(path, 'w')] followed by the writes and the close *)
Definition write_file (path content : string) : M unit :=
  fun w => (Ok tt, mkWorld (cookie_file w) (<[path := content]> (files w))
                           (launched w) (ticks w)).

(** [os.path.exists(path)] *)
Definition path_exists (path : string) (w : World) : bool :=
  bool_decide (is_Some (files w !! path)).

Definition tick : M nat :=
  fun w => (Ok (ticks w),
            mkWorld (cookie_file w) (files w) (launched w) (S (ticks w))).

(** ** The program *)

Section YTGrabber.

Variable os : Env.

(** *** Library calls, read from the environment *)

(** [subprocess.run] / [subprocess.Popen] with the output consumed and the
    exit status awaited.  An exception is handed to the caller as [Raised],
    which is where each call site has its [except Exception]. *)
Definition subprocess (cmd : list string) : M proc_outcome :=
  fun w => (Ok (spawn os (launched w) cmd),
            mkWorld (cookie_file w) (files w) (launched w ++ [cmd]) (ticks w)).

(** [datetime.now().strftime(fmt)] *)
Definition now_strftime (fmt : string) : M string :=
  let* t := tick in ret (strftime_now os t fmt).

(** [int(time.time())] *)
Definition time_time : M Z :=
  let* t := tick in ret (time_now os t).

(** [tempfile.mktemp(suffix=...)] *)
Definition mktemp (suffix : string) : M string :=
  let* t := tick in ret (mktemp_stem os t +:+ suffix).

(** [random.choice(xs)] on a non-empty sequence *)
Definition random_choice {A} (d : A) (xs : list A) : M A :=
  let* t := tick in ret (nth (random_nat os t mod length xs) xs d).

(** [''.join(random.choices(population, k=k))] *)
Fixpoint random_choices (population : string) (k : nat) : M string :=
  match k with
  | O => ret EmptyString
  | S k' =>
      let* c := random_choice "000"%char (list_ascii_of_string population) in
      let* rest := random_choices population k' in
      ret (String c rest)
  end.

(** [random.randint(a, b)] *)
Definition randint (a b : Z) : M Z :=
  let* t := tick in
  ret (a + Z.of_nat (random_nat os t) mod (b - a + 1))%Z.

(** *** Fields set by [__init__] and never assigned again *)

Definition app_name : string := "YTGrabber".

(** [str(Path("Downloads"))] *)
Definition downloads_folder : string := "Downloads".

Record format_info : Type := mkFormat { desc : string; ext : string }.

Definition supported_formats : gmap string format_info :=
  list_to_map
    [ ("video", mkFormat "Video (mp4)" "mp4");
      ("audio", mkFormat "Audio only (mp3)" "mp3");
      ("best", mkFormat "Best quality (mp4)" "mp4") ].

(** *** [create_cookie_file] *)

Definition tab : string := String (ascii_of_nat 9) EmptyString.
Definition nl : string := String (ascii_of_nat 10) EmptyString.

(** One cookie line: domain, subdomain flag, path, secure flag, expiry,
    name, value, separated by tabs. *)
Definition cookie_line (expiry : Z) (name value : string) : string :=
  ".youtube.com" +:+ tab +:+ "TRUE" +:+ tab +:+ "/" +:+ tab +:+ "TRUE"
  +:+ tab +:+ pretty expiry +:+ tab +:+ name +:+ tab +:+ value +:+ nl.

Definition cached_cookie_file (w : World) : option string :=
  match cookie_file w with
  | Some p => if Py.truthy p && path_exists p w then Some p else None
  | None => None
  end.

Definition create_cookie_file : M string :=
  let* w := get_world in
  match cached_cookie_file w with
  | Some p => ret p
  | None =>
      let* cookie_file := mktemp ".txt" in
      let* now := time_time in
      let expiry := (now + 31536000)%Z in
      let* today := now_strftime "%Y-%m-%d" in
      let* visitor_id :=
        random_choices
          "0123456789ABCDEFGHIJKLMNOPQRSTUVWXYZabcdefghijklmnopqrstuvwxyz-_"
          26 in
      let* ysc :=
        random_choices
          "ABCDEFGHIJKLMNOPQRSTUVWXYZabcdefghijklmnopqrstuvwxyz0123456789-_"
          11 in
      let* consent := randint 100 999 in
      let* _ :=
        write_file cookie_file
          (Py.join
             [ "# Netscape HTTP Cookie File" +:+ nl;
               "# Created by " +:+ app_name +:+ " on " +:+ today
                 +:+ nl +:+ nl;
               cookie_line expiry "CONSENT"
                 ("YES+cb.20230717-07-p0.en+FX+" +:+ pretty consent);
               cookie_line expiry "VISITOR_INFO1_LIVE" visitor_id;
               cookie_line expiry "PREF" "f6=8&f5=30&hl=en";
               cookie_line expiry "YSC" ysc;
               cookie_line expiry "GPS" "1" ]) in
      let* _ := set_cookie_file cookie_file in
      ret cookie_file
  end.

(** *** [get_random_user_agent] *)

Definition user_agents : list string :=
  [ "Mozilla/5.0 (Windows NT 10.0; Win64; x64) AppleWebKit/537.36 (KHTML, like Gecko) Chrome/112.0.0.0 Safari/537.36";
    "Mozilla/5.0 (Windows NT 10.0; Win64; x64) AppleWebKit/537.36 (KHTML, like Gecko) Chrome/112.0.0.0 Safari/537.36 Edg/112.0.1722.58";
    "Mozilla/5.0 (Macintosh; Intel Mac OS X 10_15_7) AppleWebKit/537.36 (KHTML, like Gecko) Chrome/112.0.0.0 Safari/537.36";
    "Mozilla/5.0 (Windows NT 10.0; Win64; x64; rv:109.0) Gecko/20100101 Firefox/112.0";
    "Mozilla/5.0 (Macintosh; Intel Mac OS X 10_15_7) AppleWebKit/605.1.15 (KHTML, like Gecko) Version/16.4 Safari/605.1.15" ].

Definition get_random_user_agent : M string :=
  random_choice EmptyString user_agents.

(** *** [normalize_url] *)

Definition normalize_url (url : string) : string :=
  if Py.startswith "@" url then "https://www.youtube.com/" +:+ url
  else if negb (Py.startswith_any ["http://"; "https://"] url) then
    if Py.startswith_any
         ["youtube.com"; "www.youtube.com"; "m.youtube.com"; "youtu.be"] url
    then "https://" +:+ url
    else url
  else url.

(** *** [probe_url_type] and [get_content_type] *)

Definition probe_url_type (url : string) : M string :=
  let cmd := [ "yt-dlp"; "--skip-download"; "--print"; "webpage_url";
               "--no-warnings"; url ] in
  let* result := subprocess cmd in
  match result with
  | Exited stdout _ =>
      let output_url := Py.strip stdout in
      if Py.contains "list=" output_url then ret "playlist"
      else if Py.contains_any ["/channel/"; "/c/"; "/user/"; "@"] output_url
      then
        if negb (Py.contains_any ["watch?v="; "/shorts/"] output_url)
        then ret "channel"
        else ret "video"
      else ret "video"
  | Raised => ret "video"
  end.

Definition get_content_type (url : string) : M string :=
  let url := normalize_url url in
  if Py.contains "/shorts/" url then ret "video"
  else if Py.contains_any ["/c/"; "/channel/"; "/user/"; "@"] url then
    if Py.contains "/videos" url then ret "channel"
    else probe_url_type url
  else if Py.contains "list=" url then ret "playlist"
  else ret "video".

(** *** [build_download_command] *)

(** [x in xs] on a list of strings *)
Definition in_list (x : string) (xs : list string) : bool :=
  existsb (String.eqb x) xs.

Definition build_download_command
    (url content_type format_type limit : string) : M (list string) :=
  let* timestamp := now_strftime "%Y%m%d_%H%M%S" in
  let output_template :=
    if content_type =? "video" then
      downloads_folder +:+ "/%(title)s_" +:+ timestamp +:+ ".%(ext)s"
    else if content_type =? "playlist" then
      downloads_folder +:+ "/%(playlist_title)s/%(title)s_" +:+ timestamp
        +:+ ".%(ext)s"
    else
      downloads_folder +:+ "/%(uploader)s/%(title)s_" +:+ timestamp
        +:+ ".%(ext)s" in
  let* user_agent := get_random_user_agent in
  let* cookies := create_cookie_file in
  let cmd :=
    [ "yt-dlp"; "--ignore-errors"; "--no-warnings"; "--geo-bypass";
      "--add-metadata"; "--user-agent"; user_agent; "--cookies"; cookies;
      "--output"; output_template; "--no-overwrites"; "--continue" ] in
  let cmd :=
    if format_type =? "audio" then
      cmd ++ [ "--format"; "bestaudio"; "--extract-audio";
               "--audio-format"; "mp3"; "--audio-quality"; "192K" ]
    else if format_type =? "best" then
      cmd ++ [ "--format"; "bestvideo+bestaudio/best";
               "--merge-output-format"; "mp4" ]
    else
      cmd ++ [ "--format"; "best"; "--merge-output-format"; "mp4" ] in
  let cmd :=
    if in_list content_type ["playlist"; "channel"]
       && negb (limit =? "all")
    then cmd ++ [ "--playlist-items"; "1-" +:+ limit ]
    else cmd in
  let cmd := cmd ++ [ "--verbose" ] in
  let cmd := cmd ++ [ url ] in
  ret cmd.

(** *** [download_fallback] and [download] *)

Definition download_fallback
    (url content_type format_type limit : string) : M bool :=
  let* timestamp := now_strftime "%Y%m%d_%H%M%S" in
  let output_template :=
    if content_type =? "video" then
      downloads_folder +:+ "/%(title)s_fallback_" +:+ timestamp
        +:+ ".%(ext)s"
    else if content_type =? "playlist" then
      downloads_folder +:+ "/%(playlist_title)s/%(title)s_fallback_"
        +:+ timestamp +:+ ".%(ext)s"
    else
      downloads_folder +:+ "/%(uploader)s/%(title)s_fallback_"
        +:+ timestamp +:+ ".%(ext)s" in
  let cmd :=
    [ "yt-dlp"; "--ignore-errors"; "--format"; "best"; "--output";
      output_template; "--no-overwrites"; "--geo-bypass" ] in
  let cmd :=
    if format_type =? "audio" then
      cmd ++ [ "--extract-audio"; "--audio-format"; "mp3" ]
    else cmd in
  let cmd :=
    if in_list content_type ["playlist"; "channel"]
       && negb (limit =? "all")
    then cmd ++ [ "--playlist-items"; "1-" +:+ limit ]
    else cmd in
  let cmd := cmd ++ [ url ] in
  let* process := subprocess cmd in
  match process with
  | Exited _ returncode =>
      if (returncode =? 0)%Z then ret true else ret false
  | Raised => ret false
  end.

(** [self.supported_formats[format_type]['desc']], evaluated for the
    banner printed before the download starts *)
Definition format_desc (format_type : string) : M string :=
  match supported_formats !! format_type with
  | Some f => ret (desc f)
  | None => raise (KeyError format_type)
  end.

Definition download
    (url : string) (content_type : option string)
    (format_type limit : string) : M bool :=
  let url := normalize_url url in
  let* content_type :=
    (* [if not content_type]: [None] and the empty string are both false *)
    match content_type with
    | Some given =>
        if Py.truthy given then ret given else get_content_type url
    | None => get_content_type url
    end in
  let* _ := format_desc format_type in
  let* cmd := build_download_command url content_type format_type limit in
  let* process := subprocess cmd in
  match process with
  | Exited _ returncode =>
      if (returncode =? 0)%Z then ret true
      else download_fallback url content_type format_type limit
  | Raised =>
      download_fallback url content_type format_type limit
  end.

End YTGrabber.

(** ** Specification-level vocabulary *)

(** The substrings the classifier looks for. *)
Definition classifier_patterns : list string :=
  ["/shorts/"; "/c/"; "/channel/"; "/user/"; "@"; "/videos"; "list="].

(** The channel-path markers. *)
Definition channel_markers : list string :=
  ["/c/"; "/channel/"; "/user/"; "@"].

(** The same markers in the order the probe lists them. *)
Definition probe_channel_markers : list string :=
  ["/channel/"; "/c/"; "/user/"; "@"].

(** The three content types. *)
Definition content_types : list string := ["video"; "playlist"; "channel"].

(** What the ordered rules say about a URL: a content type, or "ask the
    probe". *)
Inductive verdict : Type :=
| Decided (content_type : string)
| Delegated.

(** The decision order of the classifier, one constructor per rule; each
    rule applies only when all earlier ones did not. *)
Inductive decision_order (url : string) : verdict -> Prop :=
| rule_shorts :
    Py.contains "/shorts/" url = true ->
    decision_order url (Decided "video")
| rule_channel_videos :
    Py.contains "/shorts/" url = false ->
    Py.contains_any channel_markers url = true ->
    Py.contains "/videos" url = true ->
    decision_order url (Decided "channel")
| rule_channel_probe :
    Py.contains "/shorts/" url = false ->
    Py.contains_any channel_markers url = true ->
    Py.contains "/videos" url = false ->
    decision_order url Delegated
| rule_playlist :
    Py.contains "/shorts/" url = false ->
    Py.contains_any channel_markers url = false ->
    Py.contains "list=" url = true ->
    decision_order url (Decided "playlist")
| rule_default :
    Py.contains "/shorts/" url = false ->
    Py.contains_any channel_markers url = false ->
    Py.contains "list=" url = false ->
    decision_order url (Decided "video").

(** The argument vector of the metadata-only probe. *)
Definition probe_argv (url : string) : list string :=
  ["yt-dlp"; "--skip-download"; "--print"; "webpage_url"; "--no-warnings";
   url].

(** The probe as a reader expects it who takes "re-applies the substring
    rules" literally: the decision order above is run on the reported URL,
    and a failure or an undecided verdict gives video. *)
Definition probe_reapplies_rules (os : Env) (url : string) (w : World) : Prop :=
  match spawn os (launched w) (probe_argv url) with
  | Raised => fst (probe_url_type os url w) = Ok "video"
  | Exited out _ =>
      forall v, decision_order (Py.strip out) v ->
        fst (probe_url_type os url w)
        = Ok (match v with Decided t => t | Delegated => "video" end)
  end.

(** The rules the probe does apply to what the downloader reported. *)
Inductive probe_order : proc_outcome -> string -> Prop :=
| probe_failed :
    probe_order Raised "video"
| probe_playlist out rc :
    Py.contains "list=" (Py.strip out) = true ->
    probe_order (Exited out rc) "playlist"
| probe_channel out rc :
    Py.contains "list=" (Py.strip out) = false ->
    Py.contains_any probe_channel_markers (Py.strip out) = true ->
    Py.contains_any ["watch?v="; "/shorts/"] (Py.strip out) = false ->
    probe_order (Exited out rc) "channel"
| probe_channel_video out rc :
    Py.contains "list=" (Py.strip out) = false ->
    Py.contains_any probe_channel_markers (Py.strip out) = true ->
    Py.contains_any ["watch?v="; "/shorts/"] (Py.strip out) = true ->
    probe_order (Exited out rc) "video"
| probe_default out rc :
    Py.contains "list=" (Py.strip out) = false ->
    Py.contains_any probe_channel_markers (Py.strip out) = false ->
    probe_order (Exited out rc) "video".

(** ** Sample environments *)

(** An environment whose every child process prints [out] and exits with
    [rc]; the clock is frozen and the random generator counts up. *)
Definition constant_env (out : string) (rc : Z) : Env :=
  mkEnv (fun _ _ => Exited out rc)
        (fun n => n)
        (fun _ fmt =>
           if fmt =? "%Y-%m-%d" then "2024-01-01" else "20240101_120000")
        (fun _ => 1704110400%Z)
        (fun _ => "/tmp/tmpk3x9q2vb").

(** A fresh run: no cookie jar yet, empty disk, nothing launched. *)
Definition fresh_world : World := mkWorld None ∅ [] 0.

(** ** Vocabulary for argument vectors *)

(** [os.path.join]-style layout of an output template. *)
Definition path_join (parts : list string) : string :=
  match parts with
  | [] => EmptyString
  | first :: rest => fold_left (fun acc p => acc +:+ "/" +:+ p) rest first
  end.

(** The file name every output template ends with. *)
Definition timestamped_filename (timestamp : string) : string :=
  "%(title)s_" +:+ timestamp +:+ ".%(ext)s".

(** The format the builder asks the clock for. *)
Definition timestamp_format : string := "%Y%m%d_%H%M%S".

(** The value passed after "--output": the argument at index 10 of a full
    command, whose index 9 is the flag itself. *)
Definition output_argument (r : result (list string)) : option string :=
  match r with
  | Ok cmd =>
      match nth_error cmd 9 with
      | Some flag => if flag =? "--output" then nth_error cmd 10 else None
      | None => None
      end
  | Raise _ => None
  end.

(** The item-range restriction, in the words of the specification. *)
Definition item_range (content_type limit : string) : list string :=
  if decide ((content_type = "playlist" \/ content_type = "channel")
             /\ limit <> "all")
  then ["--playlist-items"; "1-" +:+ limit]
  else [].

(** Flags that only the full command carries. *)
Definition full_only_flags : list string :=
  ["--no-warnings"; "--add-metadata"; "--user-agent"; "--cookies";
   "--continue"; "--verbose"].

(** A full download command for [url]. *)
Definition is_full_argv (url : string) (cmd : list string) : Prop :=
  head cmd = Some "yt-dlp" /\
  last cmd = Some url /\
  Forall (fun flag => In flag (removelast cmd)) full_only_flags.

(** A reduced (fallback) download command for [url]: the simplified format
    selection and none of the flags reserved to the full command. *)
Definition is_reduced_argv (url : string) (cmd : list string) : Prop :=
  head cmd = Some "yt-dlp" /\
  last cmd = Some url /\
  nth_error cmd 2 = Some "--format" /\
  nth_error cmd 3 = Some "best" /\
  Forall (fun flag => ~ In flag (removelast cmd)) full_only_flags.

(** Whether a child process ran and exited with status 0. *)
Definition exited_ok (o : proc_outcome) : bool :=
  match o with
  | Exited _ returncode => (returncode =? 0)%Z
  | Raised => false
  end.

(** An environment in which every child process exits with status 1. *)
Definition failing_env : Env := constant_env EmptyString 1.

(** An environment in which no child process can be started. *)
Definition raising_env : Env :=
  mkEnv (fun _ _ => Raised) (random_nat failing_env)
        (strftime_now failing_env) (time_now failing_env)
        (mktemp_stem failing_env).

(** ** What a child process did, in full *)

(** [proc_outcome] is what the program observes of a child.  Behind it:
    the process could not be started ([Popen] raised); or it ran, wrote
    [out] and exited with [returncode], and the code that consumes it
    inside the same [try] block (the relay loop with its prints, then
    [wait]) either got through ([relayed = true]) or raised. *)
Inductive child_run : Type :=
| NotStarted
| Ran (out : string) (returncode : Z) (relayed : bool).

(** What the [try] block makes of a child: an exception, wherever it is
    raised, lands in the same [except Exception]. *)
Definition observed (c : child_run) : proc_outcome :=
  match c with
  | Ran out returncode true => Exited out returncode
  | Ran _ _ false => Raised
  | NotStarted => Raised
  end.

(** The exit status of the child itself. *)
Definition exit_status (c : child_run) : option Z :=
  match c with
  | Ran _ returncode _ => Some returncode
  | NotStarted => None
  end.

(** The attempt went through: the child exited with status 0 and its
    output was relayed without an exception. *)
Definition completed (c : child_run) : bool :=
  match c with
  | Ran _ returncode true => (returncode =? 0)%Z
  | Ran _ _ false => false
  | NotStarted => false
  end.

(** [os] shows the program the children [children]. *)
Definition observes
    (os : Env) (children : list (list string) -> list string -> child_run)
    : Prop :=
  forall launches cmd, spawn os launches cmd = observed (children launches cmd).

(** The environment that shows [children], with the sample clock, random
    generator and temporary names. *)
Definition children_env
    (children : list (list string) -> list string -> child_run) : Env :=
  mkEnv (fun launches cmd => observed (children launches cmd))
        (random_nat failing_env) (strftime_now failing_env)
        (time_now failing_env) (mktemp_stem failing_env).

(** Children that all exit with status 0 while relaying their output
    raises (a closed terminal, undecodable output). *)
Definition unrelayed_children
    : list (list string) -> list string -> child_run :=
  fun _ _ => Ran EmptyString 0 false.

(** The fallback behaviour read off the exit status of the children alone:
    a primary that exits with status 0 means true and no fallback; any
    other primary means exactly one reduced fallback, and false when that
    one does not exit with status 0 either. *)
Definition download_by_exit_status
    (os : Env) (children : list (list string) -> list string -> child_run)
    (url : string) (content_type : option string)
    (format_type limit : string) (w : World) : Prop :=
  exists probes primary,
    (probes = [] \/ probes = [probe_argv (normalize_url url)]) /\
    is_full_argv (normalize_url url) primary /\
    let before := launched w ++ probes in
    let r := download os url content_type format_type limit w in
    let one_fallback :=
      exists fallback,
        is_reduced_argv (normalize_url url) fallback /\
        launched (snd r) = before ++ [primary; fallback] /\
        (exit_status (children (before ++ [primary]) fallback) <> Some 0%Z ->
         fst r = Ok false) in
    match exit_status (children before primary) with
    | Some returncode =>
        if (returncode =? 0)%Z
        then fst r = Ok true /\ launched (snd r) = before ++ [primary]
        else one_fallback
    | None => one_fallback
    end.

(** * The rest of the program

    The output relay inside [download] and [download_fallback], the limit
    prompt, the menu loop and the clean-up at exit.  Keyboard input is a
    list of the lines still to be typed; [input()] takes the first one and
    raises [EOFError] when none is left. *)

(** ** More string primitives *)

Module Text.

(** [c.lower()] for the code points below 256: the ASCII capitals and the
    Latin-1 capitals (all of 192-222 except the multiplication sign). *)
Definition lower_char (c : ascii) : ascii :=
  let n := nat_of_ascii c in
  if (((65 <=? n) && (n <=? 90))
      || ((192 <=? n) && (n <=? 222) && negb (n =? 215)))%nat
  then ascii_of_nat (n + 32)
  else c.

(** [s.lower()] *)
Fixpoint lower (s : string) : string :=
  match s with
  | EmptyString => EmptyString
  | String c s' => String (lower_char c) (lower s')
  end.

(** Whether every character of [s] occurs in [alphabet]. *)
Definition over (alphabet s : string) : Prop :=
  Forall (fun c => In c (list_ascii_of_string alphabet))
         (list_ascii_of_string s).

End Text.

(** ** Terminal colours: class [Colors] *)

Module Colors.

Definition esc : string := String (ascii_of_nat 27) EmptyString.
Definition GREEN : string := esc +:+ "[92m".
Definition YELLOW : string := esc +:+ "[93m".
Definition RED : string := esc +:+ "[91m".
Definition ENDC : string := esc +:+ "[0m".

End Colors.

(** ** The output relay *)

(** What the relay does with one line of the child's output: [Print] is
    [print(text)], a new terminal line; [Overwrite] is
    [sys.stdout.write(text)] with its leading carriage return, which
    rewrites the current terminal line. *)
Inductive display : Type :=
| Print (text : string)
| Overwrite (text : string).

Definition cr : string := String (ascii_of_nat 13) EmptyString.

(** Body of the [for line in process.stdout] loop of [download];
    [None] is the [continue] that shows nothing. *)
Definition relay_line (line : string) : option display :=
  let line := Py.strip line in
  if Py.contains "[debug]" (Text.lower line) then None
  else if Py.contains "error" (Text.lower line) then
    Some (Print (Colors.RED +:+ line +:+ Colors.ENDC))
  else if Py.contains_any ["download"; "progress"; "ETA"; "%"] line then
    if Py.contains "[download]" line && Py.contains "%" line then
      Some (Overwrite (cr +:+ Colors.GREEN +:+ line +:+ Colors.ENDC))
    else Some (Print (Colors.GREEN +:+ line +:+ Colors.ENDC))
  else Some (Print line).

(** Body of the same loop in [download_fallback]. *)
Definition fallback_relay_line (line : string) : option display :=
  let line := Py.strip line in
  if Py.contains "error" (Text.lower line) then
    Some (Print (Colors.RED +:+ line +:+ Colors.ENDC))
  else if Py.contains_any ["download"; "progress"; "ETA"; "%"] line then
    if Py.contains "[download]" line && Py.contains "%" line then
      Some (Overwrite (cr +:+ Colors.YELLOW +:+ line +:+ Colors.ENDC))
    else Some (Print (Colors.YELLOW +:+ line +:+ Colors.ENDC))
  else Some (Print line).

(** The whole loop, over the lines the child wrote. *)
Definition relay (lines : list string) : list display :=
  omap relay_line lines.

Definition fallback_relay (lines : list string) : list display :=
  omap fallback_relay_line lines.

(** ** Clean-up at exit: the [finally] block of [main] *)

(** [os.remove(path)], where it succeeds *)
Definition remove_file (path : string) (w : World) : World :=
  mkWorld (cookie_file w) (delete path (files w)) (launched w) (ticks w).

(** The [finally] block of [main], for a [grabber] that was constructed:
    [try: if grabber.cookie_file and os.path.exists(grabber.cookie_file):
    os.remove(grabber.cookie_file)] under a bare [except: pass].
    [removable path] tells whether [os.remove(path)] succeeds; when it
    raises, the exception is swallowed and the file stays. *)
Definition main_cleanup (removable : string -> bool) (w : World) : World :=
  match cookie_file w with
  | Some p =>
      if Py.truthy p && path_exists p w then
        if removable p then remove_file p w
        else w
      else w
  | None => w
  end.

(** ** The limit prompt and the menu loop *)

(** Result of a function that reads the keyboard. *)
Inductive asked (A : Type) : Type :=
| Answer (a : A) (stdin : list string)
| EOFError.
Arguments Answer {A} a stdin.
Arguments EOFError {A}.

(** How one pass through the menu loop, or the loop itself, ends. *)
Inductive menu_result : Type :=
| Again (stdin : list string) (w : World)
| Quit (stdin : list string) (w : World)
| Eof (w : World)
| Uncaught (e : exn) (stdin : list string) (w : World).

Section Interactive.

Variable os : Env.

(** [int(text)]: [None] is [ValueError]. *)
Variable py_int : string -> option Z.

(** [ask_for_limit]: one prompt per line read, until an answer is
    accepted. *)
Fixpoint ask_for_limit (content_type : string) (stdin : list string)
    : asked string :=
  match stdin with
  | [] => EOFError
  | line :: stdin =>
      let resp := Text.lower (Py.strip line) in
      if (resp =? "") || (resp =? "all") then Answer "all" stdin
      else
        match py_int resp with
        | Some limit =>
            if (0 <? limit)%Z then Answer (pretty limit) stdin
            else ask_for_limit content_type stdin
        | None => ask_for_limit content_type stdin
        end
  end.

(** One pass through the [while True] loop of [run]. *)
Definition run_iteration (stdin : list string) (w : World) : menu_result :=
  match stdin with
  | [] => Eof w
  | choice :: stdin =>
      if choice =? "5" then Quit stdin w
      else if negb (in_list choice ["1"; "2"; "3"; "4"]) then Again stdin w
      else
        match stdin with
        | [] => Eof w
        | url_line :: stdin =>
            let url := Py.strip url_line in
            if negb (Py.truthy url) then Again stdin w
            else
              let url := normalize_url url in
              (* the dictionary literal evaluates [get_content_type(url)]
                 for its key '4' whatever the choice is *)
              match get_content_type os url w with
              | (Raise e, w) => Uncaught e stdin w
              | (Ok detected, w) =>
                  let content_type :=
                    if choice =? "1" then "video"
                    else if choice =? "2" then "playlist"
                    else if choice =? "3" then "channel"
                    else detected in
                  match stdin with
                  | [] => Eof w
                  | format_line :: stdin =>
                      let format_choice := Py.strip format_line in
                      let format_type :=
                        if negb (format_choice =? "2") then "best"
                        else "audio" in
                      let limit_answer :=
                        if in_list content_type ["playlist"; "channel"]
                        then ask_for_limit content_type stdin
                        else Answer "all" stdin in
                      match limit_answer with
                      | EOFError => Eof w
                      | Answer limit stdin =>
                          match download os url (Some content_type)
                                  format_type limit w with
                          | (Raise e, w) => Uncaught e stdin w
                          | (Ok success, w) =>
                              match stdin with
                              | [] => Eof w
                              | cont :: stdin =>
                                  if negb (Text.lower cont =? "y")
                                  then Quit stdin w
                                  else Again stdin w
                              end
                          end
                      end
                  end
              end
        end
  end.

(** [run]: the loop, with [fuel] bounding the number of passes.  [None] is
    fuel running out. *)
Fixpoint run (fuel : nat) (stdin : list string) (w : World)
    : option menu_result :=
  match fuel with
  | O => None
  | S fuel =>
      match run_iteration stdin w with
      | Again stdin w => run fuel stdin w
      | ended => Some ended
      end
  end.

End Interactive.

(** A reader of plain decimal numerals, for the examples: an optional sign
    followed by ASCII digits. *)
Fixpoint decimal_digits (acc : Z) (s : string) : option Z :=
  match s with
  | EmptyString => Some acc
  | String c s' =>
      match Ascii.is_nat c with
      | Some d => decimal_digits (10 * acc + Z.of_nat d) s'
      | None => None
      end
  end.

Definition decimal_int (s : string) : option Z :=
  match s with
  | EmptyString => None
  | String "-" (String c s') => Z.opp <$> decimal_digits 0 (String c s')
  | String "+" (String c s') => decimal_digits 0 (String c s')
  | _ => decimal_digits 0 s
  end.

(** ** Vocabulary for the further properties *)

(** Whether the rules leave the decision to the probe, read off a URL. *)
Definition needs_probe (u : string) : bool :=
  negb (Py.contains "/shorts/" u)
  && Py.contains_any channel_markers u
  && negb (Py.contains "/videos" u).

(** The world a pass through the menu, or a session, ends in. *)
Definition world_of (r : menu_result) : World :=
  match r with
  | Again _ w | Quit _ w | Eof w | Uncaught _ _ w => w
  end.

(** A menu choice that is neither a download (1-4) nor exit (5). *)
Definition invalid_choice (choice : string) : bool :=
  negb (in_list choice ["1"; "2"; "3"; "4"; "5"]).

(** An answer to the limit prompt that makes it ask again. *)
Definition rejected_limit (py_int : string -> option Z) (line : string)
    : bool :=
  let resp := Text.lower (Py.strip line) in
  negb ((resp =? "") || (resp =? "all"))
  && match py_int resp with
     | Some limit => negb (0 <? limit)%Z
     | None => true
     end.

(** The two character sets the cookie values are drawn from. *)
Definition visitor_alphabet : string :=
  "0123456789ABCDEFGHIJKLMNOPQRSTUVWXYZabcdefghijklmnopqrstuvwxyz-_".
Definition ysc_alphabet : string :=
  "ABCDEFGHIJKLMNOPQRSTUVWXYZabcdefghijklmnopqrstuvwxyz0123456789-_".

(** A line the relay of [download] treats as debug output. *)
Definition debug_line (line : string) : bool :=
  Py.contains "[debug]" (Text.lower (Py.strip line)).

(** The processes launched up to [w'] begin with those launched up
    to [w]. *)
Definition extends (w w' : World) : Prop :=
  exists more, launched w' = launched w ++ more.

(** The file name every fallback output template ends with. *)
Definition fallback_filename (timestamp : string) : string :=
  "%(title)s_fallback_" +:+ timestamp +:+ ".%(ext)s".

(** * Properties *)

(** ** String primitives *)

Lemma append_cons (a : ascii) (s t : string) :
  String a s +:+ t = String a (s +:+ t).
Proof. reflexivity. Qed.

Lemma append_empty_l (t : string) : EmptyString +:+ t = t.
Proof. reflexivity. Qed.

Lemma startswith_spec (p s : string) :
  Py.startswith p s = true <-> exists t, s = p +:+ t.
Proof.
  revert s; induction p as [|a p IH]; intros s.
  - split; [intros _; exists s; reflexivity | reflexivity].
  - destruct s as [|b s]; simpl.
    + split; [discriminate | intros [t Ht]; discriminate].
    + rewrite andb_true_iff, IH. split.
      * intros [Hab [t ->]]. apply Ascii.eqb_eq in Hab. subst b.
        exists t. reflexivity.
      * intros [t Ht]. rewrite append_cons in Ht. injection Ht as -> ->.
        split; [apply Ascii.eqb_refl | exists t; reflexivity].
Qed.

Lemma startswith_cons (a b : ascii) (p s : string) :
  Py.startswith (String a p) (String b s)
  = Ascii.eqb a b && Py.startswith p s.
Proof. reflexivity. Qed.

Lemma contains_unfold (p : string) (c : ascii) (s : string) :
  Py.contains p (String c s) = Py.startswith p (String c s) || Py.contains p s.
Proof. reflexivity. Qed.

(** [p in s] holds exactly when [s] splits as [a ++ p ++ b]. *)
Lemma contains_spec (p s : string) :
  Py.contains p s = true <-> exists a b, s = a +:+ p +:+ b.
Proof.
  induction s as [|c s IH].
  - simpl. rewrite orb_false_r, startswith_spec. split.
    + intros [t Ht]. exists EmptyString, t. exact Ht.
    + intros [a [b Hab]]. destruct a as [|x a]; [|discriminate].
      exists b. exact Hab.
  - rewrite contains_unfold, orb_true_iff, startswith_spec, IH. split.
    + intros [[t Ht] | [a [b Hab]]].
      * exists EmptyString, t. exact Ht.
      * exists (String c a), b. rewrite append_cons. congruence.
    + intros [a [b Hab]]. destruct a as [|x a].
      * left. exists b. exact Hab.
      * right. rewrite append_cons in Hab. injection Hab as _ ->.
        exists a, b. reflexivity.
Qed.

(** ** [normalize_url] *)

Lemma startswith_at (u : string) :
  Py.startswith "@" u = true -> exists t, u = String "@"%char t.
Proof. intros H. apply startswith_spec in H as [t ->]. exists t. reflexivity. Qed.

Lemma bare_host_first_char (u : string) :
  Py.startswith_any
    ["youtube.com"; "www.youtube.com"; "m.youtube.com"; "youtu.be"] u = true ->
  exists c t, u = String c t /\ (c = "y" \/ c = "w" \/ c = "m")%char.
Proof.
  destruct u as [|c t]; [discriminate|]. intros H. exists c, t.
  split; [reflexivity|].
  unfold Py.startswith_any in H. cbn [existsb] in H.
  rewrite !startswith_cons in H.
  repeat (apply orb_true_iff in H as [H | H]);
    try discriminate;
    apply andb_true_iff in H as [H _]; apply Ascii.eqb_eq in H; auto.
Qed.

(** The three ways [normalize_url] can go. *)
Lemma normalize_url_cases (u : string) :
  (Py.startswith "@" u = true /\
   normalize_url u = "https://www.youtube.com/" +:+ u)
  \/
  (Py.startswith "@" u = false /\
   Py.startswith_any ["http://"; "https://"] u = false /\
   Py.startswith_any
     ["youtube.com"; "www.youtube.com"; "m.youtube.com"; "youtu.be"] u = true /\
   normalize_url u = "https://" +:+ u)
  \/
  (Py.startswith "@" u = false /\
   (Py.startswith_any ["http://"; "https://"] u = true \/
    (Py.startswith_any ["http://"; "https://"] u = false /\
     Py.startswith_any
       ["youtube.com"; "www.youtube.com"; "m.youtube.com"; "youtu.be"] u
     = false)) /\
   normalize_url u = u).
Proof.
  unfold normalize_url.
  destruct (Py.startswith "@" u); [left; auto|].
  destruct (Py.startswith_any ["http://"; "https://"] u);
    [right; right; auto|].
  destruct (Py.startswith_any _ u); [right; left; auto | right; right; auto].
Qed.

Lemma normalize_url_fixed (u : string) :
  normalize_url (normalize_url u) = normalize_url u.
Proof.
  destruct (normalize_url_cases u)
    as [[Hat ->] | [[Hat [Hs [Hh ->]]] | [Hat [Hu ->]]]];
    [reflexivity | reflexivity |].
  unfold normalize_url. rewrite Hat.
  destruct Hu as [-> | [-> ->]]; reflexivity.
Qed.

(** Normalisation only prepends a scheme or a host, and neither prefix
    creates or hides an occurrence of a classifier pattern. *)
Lemma contains_normalize_url (p u : string) :
  In p classifier_patterns ->
  Py.contains p (normalize_url u) = Py.contains p u.
Proof.
  intros Hp. unfold normalize_url.
  destruct (Py.startswith "@" u) eqn:Hat.
  - apply startswith_at in Hat as [t ->].
    simpl in Hp.
    repeat (destruct Hp as [<- | Hp]; [reflexivity|]). contradiction.
  - destruct (Py.startswith_any ["http://"; "https://"] u); [reflexivity|].
    simpl negb. cbv iota.
    destruct (Py.startswith_any _ u) eqn:Hhost; [|reflexivity].
    apply bare_host_first_char in Hhost as [c [t [-> Hc]]].
    simpl in Hp.
    destruct Hc as [-> | [-> | ->]];
      repeat (destruct Hp as [<- | Hp]; [reflexivity|]); contradiction.
Qed.

Lemma contains_any_normalize_url (u : string) :
  Py.contains_any channel_markers (normalize_url u)
  = Py.contains_any channel_markers u.
Proof.
  unfold Py.contains_any, channel_markers. simpl.
  rewrite !contains_normalize_url by (simpl; tauto). reflexivity.
Qed.

(** ** The classifier *)

Section Classifier.

Variable os : Env.

Lemma decision_order_total (url : string) : exists v, decision_order url v.
Proof.
  destruct (Py.contains "/shorts/" url) eqn:Hs;
    [eexists; apply rule_shorts; assumption|].
  destruct (Py.contains_any channel_markers url) eqn:Hc.
  - destruct (Py.contains "/videos" url) eqn:Hv; eexists;
      [apply rule_channel_videos | apply rule_channel_probe]; assumption.
  - destruct (Py.contains "list=" url) eqn:Hl; eexists;
      [apply rule_playlist | apply rule_default]; assumption.
Qed.

Lemma decision_order_functional (url : string) (v1 v2 : verdict) :
  decision_order url v1 -> decision_order url v2 -> v1 = v2.
Proof.
  intros H1 H2; destruct H1; destruct H2; congruence.
Qed.

Lemma probe_order_functional (o : proc_outcome) (t1 t2 : string) :
  probe_order o t1 -> probe_order o t2 -> t1 = t2.
Proof.
  intros H1 H2; destruct H1; inversion H2; subst; congruence.
Qed.

(** The classifier acts on the verdict of the ordered rules. *)
Lemma get_content_type_verdict (u : string) (w : World) (v : verdict) :
  decision_order (normalize_url u) v ->
  get_content_type os u w
  = match v with
    | Decided t => (Ok t, w)
    | Delegated => probe_url_type os (normalize_url u) w
    end.
Proof.
  intros Hv. unfold get_content_type. fold channel_markers.
  destruct Hv as [Hs | Hs Hc Hv | Hs Hc Hv | Hs Hc Hl | Hs Hc Hl];
    rewrite Hs; try rewrite Hc; try rewrite Hv; try rewrite Hl;
    reflexivity.
Qed.

(** The probe launches one process and acts on [probe_order]. *)
Lemma probe_url_type_order (url : string) (w : World) (t : string) :
  probe_order (spawn os (launched w) (probe_argv url)) t ->
  probe_url_type os url w
  = (Ok t, mkWorld (cookie_file w) (files w)
                   (launched w ++ [probe_argv url]) (ticks w)).
Proof.
  unfold probe_url_type, subprocess, bind. fold (probe_argv url).
  fold probe_channel_markers.
  intros Hp. inversion Hp as [ Ho | out rc Hl Ho | out rc Hl Hc Hv Ho
                             | out rc Hl Hc Hv Ho | out rc Hl Hc Ho ];
    subst; try rewrite Hl; try rewrite Hc; try rewrite Hv; reflexivity.
Qed.

Lemma probe_order_total (o : proc_outcome) : exists t, probe_order o t.
Proof.
  destruct o as [|out rc]; [eexists; constructor|].
  destruct (Py.contains "list=" (Py.strip out)) eqn:Hl;
    [eexists; apply probe_playlist; assumption|].
  destruct (Py.contains_any probe_channel_markers (Py.strip out)) eqn:Hc;
    [|eexists; apply probe_default; assumption].
  destruct (Py.contains_any ["watch?v="; "/shorts/"] (Py.strip out)) eqn:Hv;
    eexists; [apply probe_channel_video | apply probe_channel]; assumption.
Qed.

Lemma probe_order_content_type (o : proc_outcome) (t : string) :
  probe_order o t -> In t content_types.
Proof. intros H; destruct H; simpl; auto. Qed.

(** A classification returns a content type and launches at most the
    probe. *)
Lemma get_content_type_run (u : string) (w : World) :
  exists t probes,
    (probes = [] \/ probes = [probe_argv (normalize_url u)]) /\
    In t content_types /\
    get_content_type os u w
    = (Ok t, mkWorld (cookie_file w) (files w) (launched w ++ probes)
                     (ticks w)).
Proof.
  destruct (decision_order_total (normalize_url u)) as [v Hv].
  rewrite (get_content_type_verdict u w v Hv).
  destruct v as [t|].
  - exists t, []. split; [auto|]. split.
    + inversion Hv; subst; simpl; auto.
    + rewrite app_nil_r. destruct w; reflexivity.
  - destruct (probe_order_total
                (spawn os (launched w) (probe_argv (normalize_url u))))
      as [t Ht].
    exists t, [probe_argv (normalize_url u)]. split; [auto|]. split.
    + exact (probe_order_content_type _ _ Ht).
    + apply probe_url_type_order, Ht.
Qed.

End Classifier.

(** ** Claims about [normalize_url] and [get_content_type] *)

(** C1 (as amended).  [get_content_type] applies its rules to the normalised
    URL in the fixed order of [decision_order]: "/shorts/" gives video; else
    a channel marker gives channel when "/videos" is present and the result
    of the probe otherwise; else "list=" gives playlist; else video.  The
    probe launches one metadata-only process and applies its own rules,
    [probe_order], to the stripped output: "list=" gives playlist; else a
    channel marker with neither "watch?v=" nor "/shorts/" gives channel;
    else video; and video when the process could not be run. *)
Theorem get_content_type_decision_order
    (os : Env) (u url : string) (w : World) :
  (exists v,
     decision_order (normalize_url u) v /\
     get_content_type os u w
     = match v with
       | Decided t => (Ok t, w)
       | Delegated => probe_url_type os (normalize_url u) w
       end)
  /\
  (exists t,
     probe_order (spawn os (launched w) (probe_argv url)) t /\
     probe_url_type os url w
     = (Ok t, mkWorld (cookie_file w) (files w)
                      (launched w ++ [probe_argv url]) (ticks w))).
Proof.
  split.
  - destruct (decision_order_total (normalize_url u)) as [v Hv].
    exists v. split; [exact Hv|]. apply get_content_type_verdict, Hv.
  - destruct (probe_order_total (spawn os (launched w) (probe_argv url)))
      as [t Ht].
    exists t. split; [exact Ht|]. apply probe_url_type_order, Ht.
Qed.

(** C1, as stated, fails for the probe: when the downloader reports a URL
    with both "/shorts/" and "list=", the classifier's rules say video but
    the probe answers playlist. *)
Lemma probe_does_not_reapply_rules :
  ~ probe_reapplies_rules
      (constant_env ("https://www.youtube.com/shorts/abc?list=PL1" +:+ nl) 0)
      "https://www.youtube.com/@somechannel" fresh_world.
Proof.
  unfold probe_reapplies_rules. simpl. intros H.
  assert (Hv : decision_order
                 (Py.strip ("https://www.youtube.com/shorts/abc?list=PL1"
                            +:+ nl))
                 (Decided "video")) by (apply rule_shorts; reflexivity).
  specialize (H _ Hv). discriminate H.
Qed.

(** C2, as stated, fails: a channel videos page whose query carries "list="
    has no "/shorts/" and is classified as channel. *)
Lemma list_on_channel_page_is_channel :
  ~ (Py.contains "list=" "https://www.youtube.com/c/foo/videos?list=PL1" = true ->
     Py.contains "/shorts/" "https://www.youtube.com/c/foo/videos?list=PL1" = false ->
     fst (get_content_type (constant_env EmptyString 0)
            "https://www.youtube.com/c/foo/videos?list=PL1" fresh_world)
     = Ok "playlist").
Proof.
  intros H. specialize (H eq_refl eq_refl). vm_compute in H. discriminate H.
Qed.

(** C2 (as amended).  A URL that contains "list=", does not contain
    "/shorts/" and contains none of the channel-path markers is classified
    as playlist, without probing. *)
Theorem list_without_channel_marker_is_playlist
    (os : Env) (u : string) (w : World) :
  Py.contains "list=" u = true ->
  Py.contains "/shorts/" u = false ->
  Py.contains_any channel_markers u = false ->
  get_content_type os u w = (Ok "playlist", w).
Proof.
  intros Hl Hs Hc.
  apply (get_content_type_verdict os u w (Decided "playlist")).
  apply rule_playlist.
  - rewrite contains_normalize_url by (simpl; tauto). exact Hs.
  - rewrite contains_any_normalize_url. exact Hc.
  - rewrite contains_normalize_url by (simpl; tauto). exact Hl.
Qed.

Lemma list_without_channel_marker_is_playlist_witness :
  get_content_type (constant_env EmptyString 1)
    "youtube.com/playlist?list=PL1" fresh_world
  = (Ok "playlist", fresh_world).
Proof.
  apply list_without_channel_marker_is_playlist; reflexivity.
Defined.

(** C3.  A URL whose normalised form contains "/shorts/" is classified as
    video, whatever other markers it carries, and no probe is launched. *)
Theorem shorts_is_video (os : Env) (u : string) (w : World) :
  Py.contains "/shorts/" (normalize_url u) = true ->
  get_content_type os u w = (Ok "video", w).
Proof.
  intros Hs.
  apply (get_content_type_verdict os u w (Decided "video")).
  apply rule_shorts, Hs.
Qed.

Lemma shorts_is_video_witness :
  get_content_type (constant_env EmptyString 0)
    "youtube.com/@chan/videos/shorts/abc?list=PL1" fresh_world
  = (Ok "video", fresh_world).
Proof.
  apply shorts_is_video. reflexivity.
Defined.

(** C4.  An input that starts with "@" is normalised to
    "https://www.youtube.com/" followed by the whole input, that is to
    "https://www.youtube.com/@" followed by the handle. *)
Theorem normalize_url_handle (u : string) :
  Py.startswith "@" u = true ->
  normalize_url u = "https://www.youtube.com/" +:+ u /\
  exists handle,
    u = "@" +:+ handle /\
    normalize_url u = "https://www.youtube.com/@" +:+ handle.
Proof.
  intros H. unfold normalize_url. rewrite H. split; [reflexivity|].
  apply startswith_spec in H as [handle ->].
  exists handle. split; reflexivity.
Qed.

Lemma normalize_url_handle_witness :
  normalize_url "@somechannel" = "https://www.youtube.com/" +:+ "@somechannel" /\
  exists handle,
    "@somechannel" = "@" +:+ handle /\
    normalize_url "@somechannel" = "https://www.youtube.com/@" +:+ handle.
Proof.
  apply normalize_url_handle. reflexivity.
Defined.

(** C9.  Whatever the URL and whatever the probe does, [get_content_type]
    returns (without raising) one of "video", "playlist" and "channel". *)
Theorem get_content_type_enum (os : Env) (u : string) (w : World) :
  exists t, fst (get_content_type os u w) = Ok t /\ In t content_types.
Proof.
  destruct (get_content_type_run os u w) as (t & probes & _ & Ht & Hrun).
  exists t. rewrite Hrun. split; [reflexivity | exact Ht].
Qed.

(** C10.  [normalize_url] is idempotent; its result never starts with "@";
    and it either returns its input unchanged or returns a string that
    starts with "http://" or "https://". *)
Theorem normalize_url_idempotent (u : string) :
  normalize_url (normalize_url u) = normalize_url u /\
  Py.startswith "@" (normalize_url u) = false /\
  (normalize_url u = u \/
   Py.startswith_any ["http://"; "https://"] (normalize_url u) = true).
Proof.
  split; [apply normalize_url_fixed|].
  destruct (normalize_url_cases u)
    as [[Hat ->] | [[Hat [Hs [Hh ->]]] | [Hat [Hu ->]]]].
  - split; [reflexivity | right; reflexivity].
  - split; [reflexivity | right; reflexivity].
  - split; [exact Hat | left; reflexivity].
Qed.

(** ** The cookie jar *)

Section CookieJar.

Variable os : Env.

Lemma random_choices_run (population : string) (k : nat) (w : World) :
  exists s,
    random_choices os population k w
    = (Ok s, mkWorld (cookie_file w) (files w) (launched w) (k + ticks w)).
Proof.
  revert w; induction k as [|k IH]; intros w.
  - exists EmptyString. destruct w; reflexivity.
  - simpl random_choices. unfold bind at 1. unfold random_choice, tick, bind, ret.
    match goal with
    | |- context [random_choices os population k ?w1] =>
        destruct (IH w1) as [rest Hrest]
    end.
    unfold bind. rewrite Hrest. simpl.
    eexists. rewrite Nat.add_succ_r. reflexivity.
Qed.

Lemma truthy_suffix (stem suffix : string) :
  Py.truthy suffix = true -> Py.truthy (stem +:+ suffix) = true.
Proof. destruct stem; [intros H; exact H | reflexivity]. Qed.

(** A call either returns the cached path and leaves the world alone, or
    writes one file under a fresh name and caches that name. *)
Lemma create_cookie_file_cases (w : World) :
  (exists p,
     cached_cookie_file w = Some p /\
     create_cookie_file os w = (Ok p, w))
  \/
  (cached_cookie_file w = None /\
   exists content,
     let p := mktemp_stem os (ticks w) +:+ ".txt" in
     create_cookie_file os w
     = (Ok p, mkWorld (Some p) (<[p := content]> (files w)) (launched w)
                      (41 + ticks w))).
Proof.
  unfold create_cookie_file, get_world, bind.
  destruct (cached_cookie_file w) as [p|] eqn:Hc.
  - left. exists p. split; reflexivity.
  - right. split; [reflexivity|].
    unfold mktemp, time_time, now_strftime, randint, tick, bind, ret.
    cbn [cookie_file files launched ticks].
    match goal with
    | |- context [random_choices os ?pop 26 ?w1] =>
        destruct (random_choices_run pop 26 w1) as [visitor Hv]
    end.
    rewrite Hv. cbn [cookie_file files launched ticks].
    match goal with
    | |- context [random_choices os ?pop 11 ?w1] =>
        destruct (random_choices_run pop 11 w1) as [ysc Hy]
    end.
    rewrite Hy. cbn [cookie_file files launched ticks].
    unfold write_file, set_cookie_file.
    cbn [cookie_file files launched ticks].
    eexists. reflexivity.
Qed.

Lemma cached_cookie_file_spec (w : World) (p : string) :
  cached_cookie_file w = Some p <->
  cookie_file w = Some p /\ Py.truthy p = true /\ path_exists p w = true.
Proof.
  unfold cached_cookie_file. destruct (cookie_file w) as [q|].
  - destruct (Py.truthy q) eqn:Ht; destruct (path_exists q w) eqn:He; simpl;
      split; try discriminate.
    + intros [= ->]. auto.
    + intros [[= ->] _]. reflexivity.
    + intros [[= ->] [_ H]]. congruence.
    + intros [[= ->] [H _]]. congruence.
    + intros [[= ->] [H _]]. congruence.
  - split; [discriminate | intros [H _]; discriminate].
Qed.

(** What every call establishes. *)
Lemma create_cookie_file_post (w w1 : World) (r : result string) :
  create_cookie_file os w = (r, w1) ->
  exists p,
    r = Ok p /\ cached_cookie_file w1 = Some p /\
    launched w1 = launched w.
Proof.
  intros H.
  destruct (create_cookie_file_cases w) as [[p [Hc Hr]] | [Hc [content Hr]]];
    rewrite Hr in H; injection H as <- <-.
  - exists p. auto.
  - eexists. split; [reflexivity|]. split; [|reflexivity].
    apply cached_cookie_file_spec. cbn [cookie_file files].
    split; [reflexivity|]. split.
    + apply truthy_suffix. reflexivity.
    + unfold path_exists. cbn [files].
      apply bool_decide_eq_true. rewrite lookup_insert_eq. eauto.
Qed.

End CookieJar.

(** C7.  Once [create_cookie_file] has produced a path, any later call made
    while that path is still cached and the file still exists returns the
    same path and changes nothing: no file is created or written, no random
    number is drawn. *)
Theorem create_cookie_file_idempotent
    (os : Env) (w w1 w' : World) (p : string) :
  create_cookie_file os w = (Ok p, w1) ->
  cookie_file w' = cookie_file w1 ->
  path_exists p w' = true ->
  create_cookie_file os w' = (Ok p, w').
Proof.
  intros Hfirst Hcache Hexists.
  destruct (create_cookie_file_post os w w1 _ Hfirst) as [q [[= <-] [Hc _]]].
  apply cached_cookie_file_spec in Hc as [Hfield [Htruthy _]].
  assert (Hc' : cached_cookie_file w' = Some p).
  { apply cached_cookie_file_spec. rewrite Hcache. auto. }
  destruct (create_cookie_file_cases os w') as [[q [Hq Hr]] | [Hnone _]];
    congruence.
Qed.

Lemma create_cookie_file_idempotent_witness :
  create_cookie_file failing_env
    (snd (create_cookie_file failing_env fresh_world))
  = (Ok "/tmp/tmpk3x9q2vb.txt",
     snd (create_cookie_file failing_env fresh_world)).
Proof.
  apply (create_cookie_file_idempotent failing_env fresh_world
           (snd (create_cookie_file failing_env fresh_world))).
  - vm_compute. reflexivity.
  - reflexivity.
  - vm_compute. reflexivity.
Defined.

(** ** The command builder *)

Section CommandBuilder.

Variable os : Env.

(** The code's test for the item range is the specification's. *)
Lemma item_range_code (content_type limit : string) (cmd : list string) :
  (if in_list content_type ["playlist"; "channel"] && negb (limit =? "all")
   then cmd ++ ["--playlist-items"; "1-" +:+ limit]
   else cmd)
  = cmd ++ item_range content_type limit.
Proof.
  unfold item_range, in_list. cbn [existsb].
  destruct (String.eqb_spec content_type "playlist") as [Hp|Hp];
    destruct (String.eqb_spec content_type "channel") as [Hc|Hc];
    destruct (String.eqb_spec limit "all") as [Hl|Hl];
    cbn [orb andb negb];
    destruct (decide _) as [Hd | Hd];
    first [ reflexivity
          | rewrite app_nil_r; reflexivity
          | exfalso; tauto ].
Qed.

Lemma item_range_all (content_type : string) :
  item_range content_type "all" = [].
Proof.
  unfold item_range. destruct (decide _) as [[_ H] | _]; [|reflexivity].
  contradiction H. reflexivity.
Qed.

Lemma item_range_video (limit : string) : item_range "video" limit = [].
Proof.
  unfold item_range. destruct (decide _) as [[[H | H] _] | _];
    [discriminate H | discriminate H | reflexivity].
Qed.

Lemma user_agent_choice (n : nat) :
  In (nth (n mod length user_agents) user_agents EmptyString) user_agents.
Proof.
  apply nth_In. apply Nat.mod_upper_bound. discriminate.
Qed.

(** Shape of the full command: a head that does not depend on [limit],
    the optional item range, then "--verbose" and the URL. *)
Lemma build_download_command_run
    (url content_type format_type : string) (w : World) :
  exists user_agent cookies format_options w',
    In user_agent user_agents /\
    launched w' = launched w /\
    forall limit,
      build_download_command os url content_type format_type limit w
      = (Ok ([ "yt-dlp"; "--ignore-errors"; "--no-warnings"; "--geo-bypass";
               "--add-metadata"; "--user-agent"; user_agent;
               "--cookies"; cookies; "--output";
               (if content_type =? "video" then
                  downloads_folder +:+ "/%(title)s_"
                    +:+ strftime_now os (ticks w) timestamp_format
                    +:+ ".%(ext)s"
                else if content_type =? "playlist" then
                  downloads_folder +:+ "/%(playlist_title)s/%(title)s_"
                    +:+ strftime_now os (ticks w) timestamp_format
                    +:+ ".%(ext)s"
                else
                  downloads_folder +:+ "/%(uploader)s/%(title)s_"
                    +:+ strftime_now os (ticks w) timestamp_format
                    +:+ ".%(ext)s");
               "--no-overwrites"; "--continue" ]
             ++ format_options
             ++ item_range content_type limit
             ++ ["--verbose"; url]),
         w').
Proof.
  unfold build_download_command, now_strftime, get_random_user_agent,
    random_choice, tick, bind, ret.
  cbn [cookie_file files launched ticks].
  match goal with
  | |- context [create_cookie_file os ?w2] =>
      destruct (create_cookie_file os w2) as [r w'] eqn:Hcookie;
      apply create_cookie_file_post in Hcookie
        as [cookies [-> [_ Hlaunched]]]
  end.
  exists (nth (random_nat os (S (ticks w)) mod length user_agents)
            user_agents EmptyString),
    cookies,
    (if format_type =? "audio" then
       [ "--format"; "bestaudio"; "--extract-audio";
         "--audio-format"; "mp3"; "--audio-quality"; "192K" ]
     else if format_type =? "best" then
       [ "--format"; "bestvideo+bestaudio/best";
         "--merge-output-format"; "mp4" ]
     else
       [ "--format"; "best"; "--merge-output-format"; "mp4" ]),
    w'.
  split; [apply user_agent_choice|].
  split; [exact Hlaunched|].
  intros limit. rewrite item_range_code.
  destruct (format_type =? "audio"); [|destruct (format_type =? "best")];
    rewrite <- !app_assoc; reflexivity.
Qed.

(** The fallback launches exactly one reduced command and reports whether
    it exited with status 0. *)
Lemma download_fallback_run
    (url content_type format_type limit : string) (w : World) :
  exists fallback,
    is_reduced_argv url fallback /\
    download_fallback os url content_type format_type limit w
    = (Ok (exited_ok (spawn os (launched w) fallback)),
       mkWorld (cookie_file w) (files w) (launched w ++ [fallback])
               (S (ticks w))).
Proof.
  unfold download_fallback, now_strftime, subprocess, tick, bind, ret.
  cbn [cookie_file files launched ticks].
  rewrite item_range_code.
  match goal with
  | |- context [spawn os (launched w) ?cmd] => exists cmd
  end.
  split.
  2: { destruct (spawn os _ _) as [|out rc]; [reflexivity|].
       cbn [exited_ok]. destruct (rc =? 0)%Z; reflexivity. }
  unfold is_reduced_argv, item_range, full_only_flags.
  destruct (format_type =? "audio");
    destruct (decide _) as [_|_];
    destruct (content_type =? "video");
    destruct (content_type =? "playlist");
    cbn [app head last removelast nth_error].
  all: repeat split; try reflexivity.
  all: apply Forall_forall; intros flag Hflag Hin.
  all: apply list_elem_of_In in Hflag; cbn [In] in Hflag, Hin.
  all: repeat (destruct Hflag as [<- | Hflag]);
         try contradiction;
         repeat (destruct Hin as [Hin | Hin]; [discriminate Hin|]);
         exact Hin.
Qed.

End CommandBuilder.

(** ** Claims about the commands and the download *)

(** C6.  The value passed after "--output" depends on the content type:
    for video the timestamped file name sits directly in the downloads
    folder; for playlist it sits in a subdirectory named by the playlist
    title; for channel in a subdirectory named by the uploader.  The file
    name always carries the clock reading taken by the builder. *)
Theorem output_template_by_content_type
    (os : Env) (url format_type limit : string) (w : World) :
  let filename :=
    timestamped_filename (strftime_now os (ticks w) timestamp_format) in
  output_argument
    (fst (build_download_command os url "video" format_type limit w))
  = Some (path_join [downloads_folder; filename])
  /\
  output_argument
    (fst (build_download_command os url "playlist" format_type limit w))
  = Some (path_join [downloads_folder; "%(playlist_title)s"; filename])
  /\
  output_argument
    (fst (build_download_command os url "channel" format_type limit w))
  = Some (path_join [downloads_folder; "%(uploader)s"; filename]).
Proof.
  intros filename. subst filename.
  destruct (build_download_command_run os url "video" format_type w)
    as (ua1 & ck1 & fo1 & w1 & _ & _ & Hvideo).
  destruct (build_download_command_run os url "playlist" format_type w)
    as (ua2 & ck2 & fo2 & w2 & _ & _ & Hplaylist).
  destruct (build_download_command_run os url "channel" format_type w)
    as (ua3 & ck3 & fo3 & w3 & _ & _ & Hchannel).
  rewrite (Hvideo limit), (Hplaylist limit), (Hchannel limit).
  repeat split; reflexivity.
Qed.

(** C8.  The command for a given [limit] is the command for "all" with the
    item range inserted just before "--verbose" and the URL, and the item
    range is ("--playlist-items", "1-<limit>") exactly when the content type
    is playlist or channel and the limit is not "all"; it is empty
    otherwise.  So the command differs from the unrestricted one if and only
    if the content type is playlist or channel and the limit is not "all";
    for content type video the limit changes nothing. *)
Theorem item_range_iff_collection_with_limit
    (os : Env) (url content_type format_type limit : string) (w : World) :
  exists head w',
    build_download_command os url content_type format_type "all" w
    = (Ok (head ++ ["--verbose"; url]), w')
    /\
    build_download_command os url content_type format_type limit w
    = (Ok (head ++ item_range content_type limit ++ ["--verbose"; url]), w')
    /\
    (build_download_command os url content_type format_type limit w
     <> build_download_command os url content_type format_type "all" w
     <-> (content_type = "playlist" \/ content_type = "channel")
         /\ limit <> "all")
    /\
    build_download_command os url "video" format_type limit w
    = build_download_command os url "video" format_type "all" w.
Proof.
  destruct (build_download_command_run os url content_type format_type w)
    as (ua & ck & fo & w' & _ & _ & Hrun).
  destruct (build_download_command_run os url "video" format_type w)
    as (ua' & ck' & fo' & w'' & _ & _ & Hvideo).
  pose proof (Hrun "all") as Hall. pose proof (Hrun limit) as Hlimit.
  rewrite item_range_all in Hall.
  match type of Hall with
  | _ = (Ok (?base ++ fo ++ _), _) => exists (base ++ fo), w'
  end.
  split; [|split; [|split]].
  - rewrite Hall, <- app_assoc. reflexivity.
  - rewrite Hlimit, <- app_assoc. reflexivity.
  - rewrite Hall, Hlimit. unfold item_range.
    destruct (decide _) as [Hcond | Hcond].
    + split; [intros _; exact Hcond|]. intros _ Heq.
      injection Heq as Heq. apply (f_equal length) in Heq.
      rewrite !length_app in Heq. cbn [length] in Heq. lia.
    + split; [intros Hne; contradiction Hne; reflexivity|].
      intros H; contradiction.
  - rewrite (Hvideo limit), (Hvideo "all"), !item_range_video. reflexivity.
Qed.

(** The trace of [download] in terms of what the program observes.  With a
    supported format, [download] launches the full command once (after at
    most one classification probe).  If that attempt is observed as
    [Exited] with status 0, [download] returns true and launches nothing
    else.  Otherwise exactly one more process is launched, the reduced
    fallback command, and [download] returns whether that attempt was
    observed as [Exited] with status 0. *)
Theorem download_falls_back_once
    (os : Env) (url : string) (content_type : option string)
    (format_type limit : string) (w : World) :
  is_Some (supported_formats !! format_type) ->
  exists probes primary,
    (probes = [] \/ probes = [probe_argv (normalize_url url)]) /\
    is_full_argv (normalize_url url) primary /\
    let before := launched w ++ probes in
    let r := download os url content_type format_type limit w in
    if exited_ok (spawn os before primary) then
      fst r = Ok true /\
      launched (snd r) = before ++ [primary]
    else
      exists fallback,
        is_reduced_argv (normalize_url url) fallback /\
        launched (snd r) = before ++ [primary; fallback] /\
        fst r = Ok (exited_ok (spawn os (before ++ [primary]) fallback)).
Proof.
  intros [info Hinfo].
  assert (Hresolve : exists ctype probes,
    (probes = [] \/ probes = [probe_argv (normalize_url url)]) /\
    match content_type with
    | Some given =>
        if Py.truthy given then ret given
        else get_content_type os (normalize_url url)
    | None => get_content_type os (normalize_url url)
    end w
    = (Ok ctype, mkWorld (cookie_file w) (files w) (launched w ++ probes)
                         (ticks w))).
  { assert (Hdetect : exists ctype probes,
      (probes = [] \/ probes = [probe_argv (normalize_url url)]) /\
      get_content_type os (normalize_url url) w
      = (Ok ctype, mkWorld (cookie_file w) (files w) (launched w ++ probes)
                           (ticks w))).
    { destruct (get_content_type_run os (normalize_url url) w)
        as (t & probes & Hp & _ & Hrun).
      rewrite normalize_url_fixed in Hp. eauto. }
    destruct content_type as [given|]; [|exact Hdetect].
    destruct (Py.truthy given); [|exact Hdetect].
    exists given, []. split; [auto|].
    unfold ret. rewrite app_nil_r. destruct w; reflexivity. }
  destruct Hresolve as (ctype & probes & Hprobes & Hresolve).
  set (w1 := mkWorld (cookie_file w) (files w) (launched w ++ probes)
                     (ticks w)) in *.
  destruct (build_download_command_run os (normalize_url url) ctype
              format_type w1)
    as (ua & ck & fo & w2 & Hua & Hlaunched & Hbuild).
  specialize (Hbuild limit).
  match type of Hbuild with
  | _ = (Ok ?cmd, _) => set (primary := cmd) in *
  end.
  exists probes, primary. split; [exact Hprobes|]. split.
  { assert (Hshape : exists options,
              primary = (options ++ ["--verbose"]) ++ [normalize_url url]
              /\ head options = Some "yt-dlp"
              /\ forall flag, In flag ["--no-warnings"; "--add-metadata";
                                       "--user-agent"; "--cookies";
                                       "--continue"] -> In flag options).
    { unfold primary.
      match goal with
      | |- context [?base ++ fo ++ item_range ctype limit ++ _] =>
          exists (base ++ fo ++ item_range ctype limit)
      end.
      split; [|split].
      - rewrite <- !app_assoc. reflexivity.
      - reflexivity.
      - intros flag Hflag. apply in_or_app. left.
        cbn [In] in Hflag |- *. tauto. }
    destruct Hshape as (options & -> & Hhead & Hflags).
    unfold is_full_argv. split; [|split].
    - destruct options; [discriminate Hhead | exact Hhead].
    - apply last_snoc.
    - rewrite removelast_last. unfold full_only_flags.
      apply Forall_forall. intros flag Hflag.
      apply list_elem_of_In in Hflag. cbn [In] in Hflag.
      apply in_or_app.
      destruct Hflag as [<- | [<- | [<- | [<- | [<- | [<- | []]]]]]];
        first [ right; left; reflexivity
              | left; apply Hflags; cbn [In]; tauto ]. }
  cbv zeta.
  assert (Hdownload :
    download os url content_type format_type limit w
    = match spawn os (launched w2) primary with
      | Exited _ returncode =>
          if (returncode =? 0)%Z
          then (Ok true, mkWorld (cookie_file w2) (files w2)
                                 (launched w2 ++ [primary]) (ticks w2))
          else download_fallback os (normalize_url url) ctype format_type
                 limit (mkWorld (cookie_file w2) (files w2)
                                (launched w2 ++ [primary]) (ticks w2))
      | Raised =>
          download_fallback os (normalize_url url) ctype format_type
            limit (mkWorld (cookie_file w2) (files w2)
                           (launched w2 ++ [primary]) (ticks w2))
      end).
  { unfold download. unfold bind at 1. rewrite Hresolve.
    unfold bind at 1. unfold format_desc. rewrite Hinfo. unfold ret at 1.
    unfold bind at 1. rewrite Hbuild.
    unfold bind, subprocess.
    destruct (spawn os (launched w2) primary) as [|out rc]; [reflexivity|].
    destruct (rc =? 0)%Z; reflexivity. }
  rewrite Hdownload.
  replace (launched w ++ probes) with (launched w2) by exact Hlaunched.
  destruct (download_fallback_run os (normalize_url url) ctype format_type
              limit (mkWorld (cookie_file w2) (files w2)
                             (launched w2 ++ [primary]) (ticks w2)))
    as (fallback & Hreduced & Hfallback).
  cbn [launched] in Hfallback.
  destruct (spawn os (launched w2) primary) as [|out rc] eqn:Hprimary;
    cbn [exited_ok].
  - exists fallback. rewrite Hfallback. cbn [fst snd launched].
    rewrite <- app_assoc. auto.
  - destruct (rc =? 0)%Z.
    + split; reflexivity.
    + exists fallback. rewrite Hfallback. cbn [fst snd launched].
      rewrite <- app_assoc. auto.
Qed.

Lemma download_falls_back_once_witness :
  exists probes primary,
    (probes = [] \/ probes = [probe_argv (normalize_url "@somechannel")]) /\
    is_full_argv (normalize_url "@somechannel") primary /\
    let before := launched fresh_world ++ probes in
    let r := download failing_env "@somechannel" None "best" "all"
               fresh_world in
    if exited_ok (spawn failing_env before primary) then
      fst r = Ok true /\
      launched (snd r) = before ++ [primary]
    else
      exists fallback,
        is_reduced_argv (normalize_url "@somechannel") fallback /\
        launched (snd r) = before ++ [primary; fallback] /\
        fst r = Ok (exited_ok (spawn failing_env (before ++ [primary])
                                 fallback)).
Proof.
  apply download_falls_back_once. vm_compute. eauto.
Defined.

Lemma exited_ok_observed (c : child_run) :
  exited_ok (observed c) = completed c.
Proof. destruct c as [|out rc [|]]; reflexivity. Qed.

(** C5, as stated, fails: when relaying the output raises, a primary child
    that exits with status 0 is still followed by the fallback, and here
    [download] returns false although both children exit with status 0. *)
Lemma exit_status_zero_can_fall_back :
  ~ download_by_exit_status (children_env unrelayed_children)
      unrelayed_children "youtu.be/abc" (Some "video") "best" "all"
      fresh_world.
Proof.
  intros (probes & primary & _ & _ & H).
  vm_compute in H. destruct H as [H _]. discriminate H.
Qed.

(** C5 (as amended).  With a supported format, [download] launches the full
    command once (after at most one classification probe).  If that child
    exits with status 0 and its output is relayed without an exception,
    [download] returns true and launches nothing else.  In every other
    case (the child cannot be started, exits with another status, or an
    exception is raised while its output is relayed, whatever its status)
    exactly one more process is launched, the reduced fallback command, and
    [download] returns true if that child exits with status 0 and is
    relayed without an exception and false otherwise, with no further
    attempt. *)
Theorem download_falls_back_once_unless_completed
    (os : Env) (children : list (list string) -> list string -> child_run)
    (url : string) (content_type : option string)
    (format_type limit : string) (w : World) :
  observes os children ->
  is_Some (supported_formats !! format_type) ->
  exists probes primary,
    (probes = [] \/ probes = [probe_argv (normalize_url url)]) /\
    is_full_argv (normalize_url url) primary /\
    let before := launched w ++ probes in
    let r := download os url content_type format_type limit w in
    if completed (children before primary) then
      fst r = Ok true /\
      launched (snd r) = before ++ [primary]
    else
      exists fallback,
        is_reduced_argv (normalize_url url) fallback /\
        launched (snd r) = before ++ [primary; fallback] /\
        fst r = Ok (completed (children (before ++ [primary]) fallback)).
Proof.
  intros Hobs Hfmt.
  destruct (download_falls_back_once os url content_type format_type limit
              w Hfmt)
    as (probes & primary & Hprobes & Hfull & Htrace).
  exists probes, primary. split; [exact Hprobes|]. split; [exact Hfull|].
  cbv zeta in Htrace |- *.
  rewrite Hobs, exited_ok_observed in Htrace.
  destruct (completed (children (launched w ++ probes) primary));
    [exact Htrace|].
  destruct Htrace as (fallback & Hreduced & Hlaunched & Hresult).
  exists fallback. split; [exact Hreduced|]. split; [exact Hlaunched|].
  rewrite Hobs, exited_ok_observed in Hresult. exact Hresult.
Qed.

Lemma download_falls_back_once_unless_completed_witness :
  exists probes primary,
    (probes = [] \/ probes = [probe_argv (normalize_url "youtu.be/abc")]) /\
    is_full_argv (normalize_url "youtu.be/abc") primary /\
    let before := launched fresh_world ++ probes in
    let r := download (children_env unrelayed_children) "youtu.be/abc"
               (Some "video") "best" "all" fresh_world in
    if completed (unrelayed_children before primary) then
      fst r = Ok true /\
      launched (snd r) = before ++ [primary]
    else
      exists fallback,
        is_reduced_argv (normalize_url "youtu.be/abc") fallback /\
        launched (snd r) = before ++ [primary; fallback] /\
        fst r = Ok (completed (unrelayed_children (before ++ [primary])
                                 fallback)).
Proof.
  apply download_falls_back_once_unless_completed.
  - intros launches cmd. reflexivity.
  - vm_compute. eauto.
Defined.

(** ** Worked examples *)

Example normalize_bare_host :
  normalize_url "youtu.be/dQw4w9WgXcQ" = "https://youtu.be/dQw4w9WgXcQ".
Proof. reflexivity. Qed.

Example normalize_other_site :
  normalize_url "example.com/watch" = "example.com/watch".
Proof. reflexivity. Qed.

(** A handle without "/videos" goes to the probe; when the probe cannot be
    run the type is video. *)
Example handle_probe_fails :
  get_content_type raising_env "@somechannel" fresh_world
  = (Ok "video",
     mkWorld None ∅ [probe_argv "https://www.youtube.com/@somechannel"] 0).
Proof. reflexivity. Qed.

(** The probe recognises a channel page that the classifier left open. *)
Example handle_probe_channel :
  fst (get_content_type
         (constant_env ("https://www.youtube.com/@somechannel" +:+ nl) 0)
         "@somechannel" fresh_world)
  = Ok "channel".
Proof. reflexivity. Qed.

Example playlist_command :
  fst (build_download_command failing_env
         "https://www.youtube.com/playlist?list=PL1" "playlist" "audio" "5"
         fresh_world)
  = Ok [ "yt-dlp"; "--ignore-errors"; "--no-warnings"; "--geo-bypass";
         "--add-metadata"; "--user-agent";
         "Mozilla/5.0 (Windows NT 10.0; Win64; x64) AppleWebKit/537.36 (KHTML, like Gecko) Chrome/112.0.0.0 Safari/537.36 Edg/112.0.1722.58";
         "--cookies"; "/tmp/tmpk3x9q2vb.txt"; "--output";
         "Downloads/%(playlist_title)s/%(title)s_20240101_120000.%(ext)s";
         "--no-overwrites"; "--continue"; "--format"; "bestaudio";
         "--extract-audio"; "--audio-format"; "mp3"; "--audio-quality";
         "192K"; "--playlist-items"; "1-5"; "--verbose";
         "https://www.youtube.com/playlist?list=PL1" ].
Proof. vm_compute. reflexivity. Qed.

(** Both attempts fail: one full command, one reduced command, false. *)
Example download_both_fail :
  let r := download failing_env "youtu.be/abc" (Some "video") "best" "all"
             fresh_world in
  fst r = Ok false /\
  length (launched (snd r)) = 2 /\
  last (launched (snd r))
  = Some [ "yt-dlp"; "--ignore-errors"; "--format"; "best"; "--output";
           "Downloads/%(title)s_fallback_20240101_120000.%(ext)s";
           "--no-overwrites"; "--geo-bypass"; "https://youtu.be/abc" ].
Proof. vm_compute. auto. Qed.

(** An unsupported format name stops the download before any process is
    launched. *)
Example download_unknown_format :
  download failing_env "youtu.be/abc" (Some "video") "mp4" "all" fresh_world
  = (Raise (KeyError "mp4"), fresh_world).
Proof. reflexivity. Qed.

(** * Further properties *)

(** ** Normalisation and classification *)

Lemma string_length_app (a b : string) :
  String.length (a +:+ b) = (String.length a + String.length b)%nat.
Proof. induction a as [|c a IH]; [reflexivity|]. simpl. rewrite <- IH. reflexivity. Qed.

Lemma prepend_fixed (prefix u : string) :
  prefix +:+ u = u -> prefix = EmptyString.
Proof.
  intros H. apply (f_equal String.length) in H.
  rewrite string_length_app in H.
  destruct prefix; [reflexivity | simpl in H; lia].
Qed.

(** X1.  [normalize_url] only ever prepends: the result is the input with
    nothing, "https://" or "https://www.youtube.com/" in front, and it is
    the input itself exactly when the input does not start with "@" and
    either has a scheme already or does not start with a known host. *)
Theorem normalize_url_prepends (u : string) :
  exists prefix,
    In prefix [EmptyString; "https://"; "https://www.youtube.com/"] /\
    normalize_url u = prefix +:+ u /\
    (normalize_url u = u <->
     Py.startswith "@" u = false /\
     (Py.startswith_any ["http://"; "https://"] u = true \/
      Py.startswith_any
        ["youtube.com"; "www.youtube.com"; "m.youtube.com"; "youtu.be"] u
      = false)).
Proof.
  destruct (normalize_url_cases u)
    as [[Hat Hn] | [[Hat [Hs [Hh Hn]]] | [Hat [Hu Hn]]]]; rewrite Hn.
  - exists "https://www.youtube.com/". split; [simpl; auto|].
    split; [reflexivity|]. split.
    + intros H. apply prepend_fixed in H. discriminate H.
    + intros [H _]. congruence.
  - exists "https://". split; [simpl; auto|].
    split; [reflexivity|]. split.
    + intros H. apply prepend_fixed in H. discriminate H.
    + intros [_ [H | H]]; congruence.
  - exists EmptyString. split; [simpl; auto|].
    split; [reflexivity|]. split; [|reflexivity].
    intros _. split; [exact Hat|].
    destruct Hu as [H | [_ H]]; auto.
Qed.

Lemma decision_order_ext (a b : string) (v : verdict) :
  Py.contains "/shorts/" a = Py.contains "/shorts/" b ->
  Py.contains_any channel_markers a = Py.contains_any channel_markers b ->
  Py.contains "/videos" a = Py.contains "/videos" b ->
  Py.contains "list=" a = Py.contains "list=" b ->
  decision_order a v -> decision_order b v.
Proof.
  intros Es Ec Ev El H.
  destruct H;
    first [ solve [apply rule_shorts; congruence]
          | solve [apply rule_channel_videos; congruence]
          | solve [apply rule_channel_probe; congruence]
          | solve [apply rule_playlist; congruence]
          | solve [apply rule_default; congruence] ].
Qed.

Lemma decision_order_normalize_url (u : string) (v : verdict) :
  decision_order (normalize_url u) v <-> decision_order u v.
Proof.
  assert (Hs : Py.contains "/shorts/" (normalize_url u)
               = Py.contains "/shorts/" u)
    by (apply contains_normalize_url; simpl; tauto).
  assert (Hv : Py.contains "/videos" (normalize_url u)
               = Py.contains "/videos" u)
    by (apply contains_normalize_url; simpl; tauto).
  assert (Hl : Py.contains "list=" (normalize_url u) = Py.contains "list=" u)
    by (apply contains_normalize_url; simpl; tauto).
  pose proof (contains_any_normalize_url u) as Hc.
  split; apply decision_order_ext; congruence.
Qed.

(** X2.  The ordered rules give the same verdict on the raw input as on its
    normalised form: what [normalize_url] prepends neither creates nor hides
    any of the substrings the classifier looks for. *)
Theorem verdict_unchanged_by_normalization (u : string) (v : verdict) :
  (decision_order (normalize_url u) v <-> decision_order u v) /\
  Forall (fun p => Py.contains p (normalize_url u) = Py.contains p u)
         classifier_patterns.
Proof.
  split; [apply decision_order_normalize_url|].
  apply Forall_forall. intros p Hp. apply list_elem_of_In in Hp.
  apply contains_normalize_url, Hp.
Qed.

(** X3.  Classifying an already normalised URL gives the same result, and
    the same effects, as classifying the raw input. *)
Theorem get_content_type_of_normalized (os : Env) (u : string) (w : World) :
  get_content_type os (normalize_url u) w = get_content_type os u w.
Proof.
  unfold get_content_type. rewrite normalize_url_fixed. reflexivity.
Qed.

Lemma needs_probe_normalize_url (u : string) :
  needs_probe (normalize_url u) = needs_probe u.
Proof.
  unfold needs_probe.
  rewrite contains_any_normalize_url.
  rewrite !contains_normalize_url by (simpl; tauto). reflexivity.
Qed.

(** The footprint of a classification. *)
Lemma get_content_type_world (os : Env) (u : string) (w : World) :
  snd (get_content_type os u w)
  = mkWorld (cookie_file w) (files w)
      (launched w
       ++ (if needs_probe u then [probe_argv (normalize_url u)] else []))
      (ticks w).
Proof.
  destruct (decision_order_total (normalize_url u)) as [v Hv].
  rewrite (get_content_type_verdict os u w v Hv).
  apply (proj1 (decision_order_normalize_url u v)) in Hv.
  unfold needs_probe.
  destruct v as [t|].
  - cbn [snd].
    inversion Hv as [Hs | Hs Hc Hvid | | Hs Hc Hl | Hs Hc Hl]; subst;
      rewrite Hs; try rewrite Hc; try rewrite Hvid;
      cbn [negb andb]; rewrite app_nil_r; destruct w; reflexivity.
  - destruct (probe_order_total
                (spawn os (launched w) (probe_argv (normalize_url u))))
      as [t Ht].
    rewrite (probe_url_type_order os _ w t Ht). cbn [snd].
    inversion Hv as [ | | Hs Hc Hvid | | ]; subst.
    rewrite Hs, Hc, Hvid. reflexivity.
Qed.

(** X4.  [get_content_type] never touches the cookie jar, the disk or the
    random generator; it launches the probe, and only the probe, exactly
    when the raw input has no "/shorts/", has a channel marker and has no
    "/videos". *)
Theorem get_content_type_effects (os : Env) (u : string) (w : World) :
  let w' := snd (get_content_type os u w) in
  cookie_file w' = cookie_file w /\
  files w' = files w /\
  ticks w' = ticks w /\
  launched w'
  = launched w
    ++ (if needs_probe u then [probe_argv (normalize_url u)] else []).
Proof.
  cbv zeta. rewrite get_content_type_world.
  cbn [cookie_file files ticks launched]. auto.
Qed.

(** ** The cookie jar and the clean-up *)

Section CookieJarContents.

Variable os : Env.

Lemma random_choices_chars (population : string) (k : nat) (w : World) :
  population <> EmptyString ->
  exists s,
    String.length s = k /\
    Text.over population s /\
    random_choices os population k w
    = (Ok s, mkWorld (cookie_file w) (files w) (launched w) (k + ticks w)).
Proof.
  intros Hne. revert w; induction k as [|k IH]; intros w.
  - exists EmptyString. split; [reflexivity|]. split; [constructor|].
    destruct w; reflexivity.
  - simpl random_choices. unfold bind at 1.
    unfold random_choice, tick, bind, ret.
    match goal with
    | |- context [random_choices os population k ?w1] =>
        destruct (IH w1) as (rest & Hlen & Hover & Hrest)
    end.
    unfold bind. rewrite Hrest. cbn [cookie_file files launched ticks].
    eexists (String _ rest). split; [simpl; rewrite Hlen; reflexivity|].
    split.
    + unfold Text.over. cbn [list_ascii_of_string]. constructor; [|exact Hover].
      apply nth_In. apply Nat.mod_upper_bound.
      destruct population; [contradiction Hne; reflexivity | discriminate].
    + rewrite Nat.add_succ_r. reflexivity.
Qed.

(** A fresh jar, spelled out. *)
Lemma create_cookie_file_fresh (w : World) :
  cached_cookie_file w = None ->
  exists visitor ysc consent,
    String.length visitor = 26 /\ Text.over visitor_alphabet visitor /\
    String.length ysc = 11 /\ Text.over ysc_alphabet ysc /\
    (100 <= consent <= 999)%Z /\
    let p := mktemp_stem os (ticks w) +:+ ".txt" in
    let expiry := (time_now os (S (ticks w)) + 31536000)%Z in
    create_cookie_file os w
    = (Ok p,
       mkWorld (Some p)
         (<[p := Py.join
                   ([ "# Netscape HTTP Cookie File" +:+ nl;
                      "# Created by YTGrabber on "
                        +:+ strftime_now os (S (S (ticks w))) "%Y-%m-%d"
                        +:+ nl +:+ nl ]
                    ++ map (fun c => cookie_line expiry (fst c) (snd c))
                         [ ("CONSENT",
                            "YES+cb.20230717-07-p0.en+FX+" +:+ pretty consent);
                           ("VISITOR_INFO1_LIVE", visitor);
                           ("PREF", "f6=8&f5=30&hl=en");
                           ("YSC", ysc);
                           ("GPS", "1") ])]> (files w))
         (launched w) (41 + ticks w)).
Proof.
  intros Hc.
  unfold create_cookie_file, get_world, bind. rewrite Hc.
  unfold mktemp, time_time, now_strftime, randint, tick, bind, ret.
  cbn [cookie_file files launched ticks].
  match goal with
  | |- context [random_choices os ?pop 26 ?w1] =>
      destruct (random_choices_chars pop 26 w1 ltac:(discriminate))
        as (visitor & Hvl & Hvo & Hv)
  end.
  rewrite Hv. cbn [cookie_file files launched ticks].
  match goal with
  | |- context [random_choices os ?pop 11 ?w1] =>
      destruct (random_choices_chars pop 11 w1 ltac:(discriminate))
        as (ysc & Hyl & Hyo & Hy)
  end.
  rewrite Hy. cbn [cookie_file files launched ticks].
  unfold write_file, set_cookie_file.
  cbn [cookie_file files launched ticks].
  match goal with
  | |- context [pretty (100 + ?r mod ?m)%Z] =>
      exists visitor, ysc, (100 + r mod m)%Z
  end.
  split; [exact Hvl|]. split; [exact Hvo|].
  split; [exact Hyl|]. split; [exact Hyo|].
  split.
  - match goal with
    | |- (100 <= 100 + ?r mod _ <= 999)%Z =>
        pose proof (Z.mod_pos_bound r 900 ltac:(lia))
    end.
    change (999 - 100 + 1)%Z with 900%Z. lia.
  - reflexivity.
Qed.

End CookieJarContents.

(** X5.  A newly written cookie jar is the Netscape header followed by
    exactly five cookie lines that share one expiry, 31536000 seconds after
    the clock reading.  The visitor id has 26 characters and the YSC value
    11, all from the 64-character alphabets, and the consent suffix is a
    number from 100 to 999. *)
Theorem cookie_jar_contents (os : Env) (w : World) :
  cached_cookie_file w = None ->
  exists visitor ysc consent,
    String.length visitor = 26 /\ Text.over visitor_alphabet visitor /\
    String.length ysc = 11 /\ Text.over ysc_alphabet ysc /\
    (100 <= consent <= 999)%Z /\
    let p := mktemp_stem os (ticks w) +:+ ".txt" in
    let expiry := (time_now os (S (ticks w)) + 31536000)%Z in
    fst (create_cookie_file os w) = Ok p /\
    files (snd (create_cookie_file os w)) !! p
    = Some (Py.join
              ([ "# Netscape HTTP Cookie File" +:+ nl;
                 "# Created by YTGrabber on "
                   +:+ strftime_now os (S (S (ticks w))) "%Y-%m-%d"
                   +:+ nl +:+ nl ]
               ++ map (fun c => cookie_line expiry (fst c) (snd c))
                    [ ("CONSENT",
                       "YES+cb.20230717-07-p0.en+FX+" +:+ pretty consent);
                      ("VISITOR_INFO1_LIVE", visitor);
                      ("PREF", "f6=8&f5=30&hl=en");
                      ("YSC", ysc);
                      ("GPS", "1") ])).
Proof.
  intros Hc.
  destruct (create_cookie_file_fresh os w Hc)
    as (visitor & ysc & consent & Hvl & Hvo & Hyl & Hyo & Hcons & Hrun).
  exists visitor, ysc, consent.
  repeat (split; [assumption|]).
  cbv zeta in Hrun |- *. rewrite Hrun. cbn [fst snd files].
  split; [reflexivity | apply lookup_insert_eq].
Qed.

Lemma cookie_jar_contents_witness :
  exists visitor ysc consent,
    String.length visitor = 26 /\ Text.over visitor_alphabet visitor /\
    String.length ysc = 11 /\ Text.over ysc_alphabet ysc /\
    (100 <= consent <= 999)%Z /\
    let p := mktemp_stem failing_env (ticks fresh_world) +:+ ".txt" in
    let expiry :=
      (time_now failing_env (S (ticks fresh_world)) + 31536000)%Z in
    fst (create_cookie_file failing_env fresh_world) = Ok p /\
    files (snd (create_cookie_file failing_env fresh_world)) !! p
    = Some (Py.join
              ([ "# Netscape HTTP Cookie File" +:+ nl;
                 "# Created by YTGrabber on "
                   +:+ strftime_now failing_env (S (S (ticks fresh_world)))
                         "%Y-%m-%d"
                   +:+ nl +:+ nl ]
               ++ map (fun c => cookie_line expiry (fst c) (snd c))
                    [ ("CONSENT",
                       "YES+cb.20230717-07-p0.en+FX+" +:+ pretty consent);
                      ("VISITOR_INFO1_LIVE", visitor);
                      ("PREF", "f6=8&f5=30&hl=en");
                      ("YSC", ysc);
                      ("GPS", "1") ])).
Proof.
  apply cookie_jar_contents. reflexivity.
Defined.

Lemma cached_cookie_file_remove (p : string) (w : World) :
  cookie_file w = Some p -> cached_cookie_file (remove_file p w) = None.
Proof.
  intros Hc. unfold cached_cookie_file, remove_file, path_exists.
  cbn [cookie_file files]. rewrite Hc, lookup_delete_eq.
  rewrite bool_decide_eq_false_2 by (intros [x Hx]; discriminate Hx).
  rewrite andb_false_r. reflexivity.
Qed.

Lemma main_cleanup_cases (removable : string -> bool) (w : World) :
  (exists p, cached_cookie_file w = Some p /\ cookie_file w = Some p /\
             removable p = true /\
             main_cleanup removable w = remove_file p w)
  \/ (exists p, cached_cookie_file w = Some p /\ removable p = false /\
                main_cleanup removable w = w)
  \/ (cached_cookie_file w = None /\ main_cleanup removable w = w).
Proof.
  unfold main_cleanup, cached_cookie_file.
  destruct (cookie_file w) as [p|]; [|right; right; auto].
  destruct (Py.truthy p && path_exists p w); [|right; right; auto].
  destruct (removable p) eqn:Hr; [left | right; left]; exists p; auto.
Qed.

(** X6.  Every call of [create_cookie_file] returns a non-empty path that
    is cached on the object and exists on disk afterwards; no process is
    launched and no other file is created, changed or removed. *)
Theorem create_cookie_file_frame (os : Env) (w : World) :
  exists p,
    fst (create_cookie_file os w) = Ok p /\
    p <> EmptyString /\
    cookie_file (snd (create_cookie_file os w)) = Some p /\
    path_exists p (snd (create_cookie_file os w)) = true /\
    launched (snd (create_cookie_file os w)) = launched w /\
    forall q, q <> p ->
      files (snd (create_cookie_file os w)) !! q = files w !! q.
Proof.
  destruct (create_cookie_file os w) as [r w1] eqn:Hrun.
  destruct (create_cookie_file_post os w w1 r Hrun)
    as (p & -> & Hcached & Hlaunched).
  apply cached_cookie_file_spec in Hcached as (Hfield & Htruthy & Hexists).
  exists p. cbn [fst snd].
  split; [reflexivity|].
  split; [intros ->; discriminate Htruthy|].
  split; [exact Hfield|]. split; [exact Hexists|].
  split; [exact Hlaunched|].
  intros q Hq.
  destruct (create_cookie_file_cases os w)
    as [(p' & _ & Hr) | (_ & content & Hr)];
    rewrite Hr in Hrun; injection Hrun as Hp Hw; subst; [reflexivity|].
  cbn [files]. apply lookup_insert_ne. congruence.
Qed.

(** X7.  The clean-up at exit touches at most the cached cookie jar: every
    other file, the cache field and the launch log are kept, and a second
    clean-up changes nothing.  When the removal succeeds no jar is left;
    when it fails the exception is swallowed and nothing changes, so the
    jar stays on disk. *)
Theorem main_cleanup_touches_only_the_jar
    (removable : string -> bool) (w : World) :
  (forall q, cached_cookie_file w <> Some q ->
             files (main_cleanup removable w) !! q = files w !! q) /\
  cookie_file (main_cleanup removable w) = cookie_file w /\
  launched (main_cleanup removable w) = launched w /\
  main_cleanup removable (main_cleanup removable w)
  = main_cleanup removable w /\
  (forall p, cached_cookie_file w = Some p ->
     if removable p
     then cached_cookie_file (main_cleanup removable w) = None /\
          path_exists p (main_cleanup removable w) = false
     else main_cleanup removable w = w).
Proof.
  destruct (main_cleanup_cases removable w)
    as [(p & Hc & Hf & Hr & Hm) | [(p & Hc & Hr & Hm) | (Hc & Hm)]];
    rewrite Hm.
  - assert (Hgone : cached_cookie_file (remove_file p w) = None)
      by (apply cached_cookie_file_remove, Hf).
    split; [|split; [reflexivity|split; [reflexivity|split]]].
    + intros q Hq. unfold remove_file. cbn [files].
      apply lookup_delete_ne. congruence.
    + destruct (main_cleanup_cases removable (remove_file p w))
        as [(q & Hq & _) | [(q & Hq & _) | (_ & ->)]];
        [congruence | congruence | reflexivity].
    + intros q Hq. assert (q = p) by congruence. subst q. rewrite Hr.
      split; [exact Hgone|].
      unfold path_exists, remove_file. cbn [files].
      rewrite lookup_delete_eq.
      apply bool_decide_eq_false_2. intros [x Hx]. discriminate Hx.
  - split; [reflexivity|]. split; [reflexivity|]. split; [reflexivity|].
    split; [exact Hm|].
    intros q Hq. assert (q = p) by congruence. subst q. rewrite Hr.
    reflexivity.
  - split; [reflexivity|]. split; [reflexivity|]. split; [reflexivity|].
    split; [exact Hm|].
    intros p Hp. congruence.
Qed.

(** X8.  Creating the jar and cleaning up leaves the disk as it was,
    provided the temporary name was not in use and the removal succeeds;
    when the removal fails, the jar written by the run is still there. *)
Theorem cookie_jar_leaves_no_trace
    (os : Env) (removable : string -> bool) (w : World) :
  cached_cookie_file w = None ->
  files w !! (mktemp_stem os (ticks w) +:+ ".txt") = None ->
  let p := mktemp_stem os (ticks w) +:+ ".txt" in
  let w' := main_cleanup removable (snd (create_cookie_file os w)) in
  if removable p then files w' = files w
  else w' = snd (create_cookie_file os w) /\ path_exists p w' = true.
Proof.
  intros Hc Hfresh. cbv zeta.
  destruct (create_cookie_file_cases os w)
    as [(p & Hp & _) | (_ & content & Hr)]; [congruence|].
  cbv zeta in Hr. rewrite Hr. cbn [snd].
  match goal with
  | |- context [main_cleanup removable ?w1] =>
      assert (Hsome : cached_cookie_file w1
                      = Some (mktemp_stem os (ticks w) +:+ ".txt"));
      [|destruct (main_cleanup_cases removable w1)
          as [(p & Hcp & Hf & Hrm & Hm) | [(p & Hcp & Hrm & Hm) | (Hnone & _)]]]
  end.
  - apply cached_cookie_file_spec. cbn [cookie_file].
    split; [reflexivity|]. split; [apply truthy_suffix; reflexivity|].
    unfold path_exists. cbn [files]. apply bool_decide_eq_true.
    rewrite lookup_insert_eq. eauto.
  - assert (p = mktemp_stem os (ticks w) +:+ ".txt") by congruence. subst p.
    rewrite Hrm, Hm. unfold remove_file. cbn [files].
    rewrite delete_insert_eq. apply delete_id, Hfresh.
  - assert (p = mktemp_stem os (ticks w) +:+ ".txt") by congruence. subst p.
    rewrite Hrm, Hm. split; [reflexivity|].
    apply cached_cookie_file_spec in Hsome as (_ & _ & He). exact He.
  - congruence.
Qed.

Lemma cookie_jar_leaves_no_trace_witness :
  let p := mktemp_stem failing_env (ticks fresh_world) +:+ ".txt" in
  let w' := main_cleanup (fun _ => true)
              (snd (create_cookie_file failing_env fresh_world)) in
  if (fun _ : string => true) p then files w' = files fresh_world
  else w' = snd (create_cookie_file failing_env fresh_world)
       /\ path_exists p w' = true.
Proof.
  apply (cookie_jar_leaves_no_trace failing_env (fun _ => true) fresh_world);
    reflexivity.
Defined.

(** X9.  The cache is only as good as the file: once the jar has been
    deleted, the next call does not return the cached path but draws a new
    temporary name, writes a new jar there and caches it. *)
Theorem create_cookie_file_after_removal (os : Env) (w : World) (p : string) :
  cookie_file w = Some p ->
  path_exists p w = false ->
  let q := mktemp_stem os (ticks w) +:+ ".txt" in
  fst (create_cookie_file os w) = Ok q /\
  cookie_file (snd (create_cookie_file os w)) = Some q /\
  path_exists q (snd (create_cookie_file os w)) = true /\
  ticks (snd (create_cookie_file os w)) = 41 + ticks w.
Proof.
  intros Hfield Hgone q.
  assert (Hc : cached_cookie_file w = None).
  { unfold cached_cookie_file. rewrite Hfield, Hgone, andb_false_r.
    reflexivity. }
  destruct (create_cookie_file_cases os w)
    as [(p' & Hp & _) | (_ & content & Hr)]; [congruence|].
  cbv zeta in Hr. rewrite Hr. cbn [fst snd cookie_file ticks].
  repeat split; try reflexivity.
  unfold path_exists. cbn [files]. apply bool_decide_eq_true.
  rewrite lookup_insert_eq. eauto.
Qed.

Lemma create_cookie_file_after_removal_witness :
  let w := main_cleanup (fun _ => true)
             (snd (create_cookie_file failing_env fresh_world)) in
  let q := mktemp_stem failing_env (ticks w) +:+ ".txt" in
  fst (create_cookie_file failing_env w) = Ok q /\
  cookie_file (snd (create_cookie_file failing_env w)) = Some q /\
  path_exists q (snd (create_cookie_file failing_env w)) = true /\
  ticks (snd (create_cookie_file failing_env w)) = 41 + ticks w.
Proof.
  intros w.
  apply (create_cookie_file_after_removal failing_env w
           "/tmp/tmpk3x9q2vb.txt"); vm_compute; reflexivity.
Defined.

(** ** The builder and the download, continued *)

Section DownloadTrace.

Variable os : Env.

Lemma cached_cookie_file_ticks (w : World) (n : nat) :
  cached_cookie_file (mkWorld (cookie_file w) (files w) (launched w) n)
  = cached_cookie_file w.
Proof. reflexivity. Qed.

(** The jar behind a built command. *)
Lemma build_download_command_jar
    (url content_type format_type limit : string) (w : World) :
  exists cmd user_agent p w',
    build_download_command os url content_type format_type limit w
    = (Ok cmd, w') /\
    head cmd = Some "yt-dlp" /\
    last cmd = Some url /\
    nth_error cmd 5 = Some "--user-agent" /\
    nth_error cmd 6 = Some user_agent /\
    In user_agent user_agents /\
    nth_error cmd 7 = Some "--cookies" /\
    nth_error cmd 8 = Some p /\
    create_cookie_file os
      (mkWorld (cookie_file w) (files w) (launched w) (S (S (ticks w))))
    = (Ok p, w').
Proof.
  unfold build_download_command, now_strftime, get_random_user_agent,
    random_choice, tick, bind, ret.
  cbn [cookie_file files launched ticks].
  match goal with
  | |- context [create_cookie_file os ?w2] =>
      destruct (create_cookie_file os w2) as [r w'] eqn:Hcookie;
      destruct (create_cookie_file_post os _ _ _ Hcookie)
        as (p & -> & _ & _)
  end.
  rewrite item_range_code.
  match goal with
  | |- context [(Ok ?c, w')] =>
      exists c,
        (nth (random_nat os (S (ticks w)) mod length user_agents)
             user_agents EmptyString),
        p, w'
  end.
  split; [reflexivity|].
  split; [destruct (format_type =? "audio");
          [|destruct (format_type =? "best")]; reflexivity|].
  split; [apply last_snoc|].
  split; [destruct (format_type =? "audio");
          [|destruct (format_type =? "best")]; reflexivity|].
  split; [destruct (format_type =? "audio");
          [|destruct (format_type =? "best")]; reflexivity|].
  split; [apply user_agent_choice|].
  split; [destruct (format_type =? "audio");
          [|destruct (format_type =? "best")]; reflexivity|].
  split; [destruct (format_type =? "audio");
          [|destruct (format_type =? "best")]; reflexivity|].
  reflexivity.
Qed.

(** How [download] settles the content type. *)
Lemma resolve_content_type
    (u : string) (content_type : option string) (w : World) :
  exists ctype probes,
    (probes = [] \/ probes = [probe_argv (normalize_url u)]) /\
    (forall t, content_type = Some t -> Py.truthy t = true ->
               ctype = t /\ probes = []) /\
    match content_type with
    | Some given =>
        if Py.truthy given then ret given
        else get_content_type os (normalize_url u)
    | None => get_content_type os (normalize_url u)
    end w
    = (Ok ctype, mkWorld (cookie_file w) (files w) (launched w ++ probes)
                         (ticks w)).
Proof.
  assert (Hdetect : exists ctype probes,
    (probes = [] \/ probes = [probe_argv (normalize_url u)]) /\
    get_content_type os (normalize_url u) w
    = (Ok ctype, mkWorld (cookie_file w) (files w) (launched w ++ probes)
                         (ticks w))).
  { destruct (get_content_type_run os (normalize_url u) w)
      as (t & probes & Hp & _ & Hrun).
    rewrite normalize_url_fixed in Hp. eauto. }
  destruct Hdetect as (ctype & probes & Hp & Hrun).
  destruct content_type as [given|].
  - destruct (Py.truthy given) eqn:Ht.
    + exists given, []. split; [auto|]. split.
      * intros t [= ->] _. auto.
      * unfold ret. rewrite app_nil_r. destruct w; reflexivity.
    + exists ctype, probes. split; [exact Hp|]. split; [|exact Hrun].
      intros t [= ->] Ht'. congruence.
  - exists ctype, probes. split; [exact Hp|]. split; [|exact Hrun].
    intros t Ht. discriminate Ht.
Qed.

End DownloadTrace.

(** X10.  Every command [build_download_command] returns starts with
    "yt-dlp" and ends with the URL; its user agent is one of the five listed
    ones whatever the random draw; and the path it passes after "--cookies"
    is cached and names a file that exists when the builder returns.
    Building a command launches no process. *)
Theorem build_download_command_post
    (os : Env) (url content_type format_type limit : string) (w : World) :
  exists cmd user_agent p,
    fst (build_download_command os url content_type format_type limit w)
    = Ok cmd /\
    head cmd = Some "yt-dlp" /\
    last cmd = Some url /\
    nth_error cmd 5 = Some "--user-agent" /\
    nth_error cmd 6 = Some user_agent /\
    In user_agent user_agents /\
    nth_error cmd 7 = Some "--cookies" /\
    nth_error cmd 8 = Some p /\
    cached_cookie_file
      (snd (build_download_command os url content_type format_type limit w))
    = Some p /\
    launched
      (snd (build_download_command os url content_type format_type limit w))
    = launched w.
Proof.
  destruct (build_download_command_jar os url content_type format_type
              limit w)
    as (cmd & ua & p & w' & Hrun & Hhd & Hlast & H5 & H6 & Hua & H7 & H8
        & Hjar).
  exists cmd, ua, p. rewrite Hrun. cbn [fst snd].
  destruct (create_cookie_file_post os _ _ _ Hjar)
    as (p' & [= <-] & Hcached & Hlaunched).
  split; [reflexivity|].
  repeat (split; [assumption|]). exact Hlaunched.
Qed.

(** X11.  However many commands are built in a row, they share one cookie
    jar: the second builder call passes the same path after "--cookies" and
    leaves the disk and the cache as the first call left them. *)
Theorem commands_share_one_jar
    (os : Env) (url1 type1 format1 limit1 url2 type2 format2 limit2 : string)
    (w : World) :
  let r1 := build_download_command os url1 type1 format1 limit1 w in
  let r2 := build_download_command os url2 type2 format2 limit2 (snd r1) in
  exists cmd1 cmd2 p,
    fst r1 = Ok cmd1 /\ fst r2 = Ok cmd2 /\
    nth_error cmd1 8 = Some p /\ nth_error cmd2 8 = Some p /\
    files (snd r2) = files (snd r1) /\
    cookie_file (snd r2) = cookie_file (snd r1).
Proof.
  cbv zeta.
  destruct (build_download_command_jar os url1 type1 format1 limit1 w)
    as (cmd1 & ua1 & p & w1 & Hrun1 & _ & _ & _ & _ & _ & _ & H8 & Hjar1).
  rewrite Hrun1. cbn [fst snd].
  destruct (build_download_command_jar os url2 type2 format2 limit2 w1)
    as (cmd2 & ua2 & q & w2 & Hrun2 & _ & _ & _ & _ & _ & _ & H8' & Hjar2).
  rewrite Hrun2. cbn [fst snd].
  destruct (create_cookie_file_post os _ _ _ Hjar1)
    as (p' & [= <-] & Hcached & _).
  destruct (create_cookie_file_cases os
              (mkWorld (cookie_file w1) (files w1) (launched w1)
                       (S (S (ticks w1)))))
    as [(p' & Hp' & Hr) | (Hnone & _)].
  - rewrite cached_cookie_file_ticks, Hcached in Hp'. injection Hp' as <-.
    rewrite Hr in Hjar2. injection Hjar2 as <- <-.
    exists cmd1, cmd2, p. cbn [files cookie_file].
    repeat split; assumption || reflexivity.
  - rewrite cached_cookie_file_ticks in Hnone. congruence.
Qed.

(** X12.  With a format name that is not a key of [supported_formats],
    [download] raises [KeyError] for that name before any command is built:
    no cookie jar is written, no random number is drawn, and at most the
    classification probe has been launched. *)
Theorem download_unsupported_format
    (os : Env) (u : string) (content_type : option string)
    (format_type limit : string) (w : World) :
  supported_formats !! format_type = None ->
  let r := download os u content_type format_type limit w in
  fst r = Raise (KeyError format_type) /\
  cookie_file (snd r) = cookie_file w /\
  files (snd r) = files w /\
  ticks (snd r) = ticks w /\
  (launched (snd r) = launched w \/
   launched (snd r) = launched w ++ [probe_argv (normalize_url u)]).
Proof.
  intros Hnone. cbv zeta.
  destruct (resolve_content_type os u content_type w)
    as (ctype & probes & Hp & _ & Hresolve).
  assert (Hrun : download os u content_type format_type limit w
                 = (Raise (KeyError format_type),
                    mkWorld (cookie_file w) (files w) (launched w ++ probes)
                            (ticks w))).
  { unfold download. unfold bind at 1. rewrite Hresolve.
    unfold bind at 1. unfold format_desc. rewrite Hnone. reflexivity. }
  rewrite Hrun. cbn [fst snd cookie_file files ticks launched].
  do 4 (split; [reflexivity|]).
  destruct Hp as [-> | ->]; [left; apply app_nil_r | right; reflexivity].
Qed.

Lemma download_unsupported_format_witness :
  let r := download failing_env "@somechannel" None "mp4" "all"
             fresh_world in
  fst r = Raise (KeyError "mp4") /\
  cookie_file (snd r) = cookie_file fresh_world /\
  files (snd r) = files fresh_world /\
  ticks (snd r) = ticks fresh_world /\
  (launched (snd r) = launched fresh_world \/
   launched (snd r)
   = launched fresh_world ++ [probe_argv (normalize_url "@somechannel")]).
Proof.
  apply download_unsupported_format. reflexivity.
Defined.

(** X13.  [download] normalises its URL itself, so handing it an already
    normalised URL (as the menu loop does) changes nothing. *)
Theorem download_of_normalized
    (os : Env) (u : string) (content_type : option string)
    (format_type limit : string) (w : World) :
  download os (normalize_url u) content_type format_type limit w
  = download os u content_type format_type limit w.
Proof.
  unfold download. rewrite normalize_url_fixed. reflexivity.
Qed.

Section DownloadRuns.

Variable os : Env.

Lemma full_argv_shape
    (user_agent cookies template url : string) (tail_options range : list string) :
  is_full_argv url
    ([ "yt-dlp"; "--ignore-errors"; "--no-warnings"; "--geo-bypass";
       "--add-metadata"; "--user-agent"; user_agent; "--cookies"; cookies;
       "--output"; template; "--no-overwrites"; "--continue" ]
     ++ tail_options ++ range ++ ["--verbose"; url]).
Proof.
  match goal with
  | |- is_full_argv _ (?base ++ _) =>
      replace (base ++ tail_options ++ range ++ ["--verbose"; url])
        with (((base ++ tail_options ++ range) ++ ["--verbose"]) ++ [url])
        by (rewrite <- !app_assoc; reflexivity)
  end.
  unfold is_full_argv. split; [reflexivity|]. split; [apply last_snoc|].
  rewrite removelast_last. unfold full_only_flags.
  apply Forall_forall. intros flag Hflag.
  apply list_elem_of_In in Hflag. cbn [In] in Hflag.
  apply in_or_app.
  destruct Hflag as [<- | [<- | [<- | [<- | [<- | [<- | []]]]]]];
    first [ right; left; reflexivity
          | left; apply in_or_app; left; cbn [In]; tauto ].
Qed.

(** What a download with a supported format does, start to end. *)
Lemma download_trace
    (u : string) (content_type : option string)
    (format_type limit : string) (w : World) :
  is_Some (supported_formats !! format_type) ->
  exists ctype probes primary rest success w',
    (probes = [] \/ probes = [probe_argv (normalize_url u)]) /\
    (forall t, content_type = Some t -> Py.truthy t = true ->
               ctype = t /\ probes = []) /\
    is_full_argv (normalize_url u) primary /\
    (rest = [] \/
     exists fallback,
       is_reduced_argv (normalize_url u) fallback /\ rest = [fallback]) /\
    download os u content_type format_type limit w = (Ok success, w') /\
    launched w' = launched w ++ probes ++ primary :: rest.
Proof.
  intros [info Hinfo].
  destruct (resolve_content_type os u content_type w)
    as (ctype & probes & Hp & Hgiven & Hresolve).
  set (w1 := mkWorld (cookie_file w) (files w) (launched w ++ probes)
                     (ticks w)) in *.
  destruct (build_download_command_run os (normalize_url u) ctype
              format_type w1)
    as (ua & ck & fo & w2 & Hua & Hlaunched & Hbuild).
  specialize (Hbuild limit).
  match type of Hbuild with
  | _ = (Ok ?cmd, _) =>
      assert (Hfull : is_full_argv (normalize_url u) cmd)
        by apply full_argv_shape;
      set (primary := cmd) in *
  end.
  set (w3 := mkWorld (cookie_file w2) (files w2) (launched w2 ++ [primary])
                     (ticks w2)).
  destruct (download_fallback_run os (normalize_url u) ctype format_type
              limit w3)
    as (fallback & Hreduced & Hfallback).
  assert (Hdownload :
    download os u content_type format_type limit w
    = match spawn os (launched w2) primary with
      | Exited _ returncode =>
          if (returncode =? 0)%Z then (Ok true, w3)
          else download_fallback os (normalize_url u) ctype format_type
                 limit w3
      | Raised =>
          download_fallback os (normalize_url u) ctype format_type limit w3
      end).
  { unfold download. unfold bind at 1. rewrite Hresolve.
    unfold bind at 1. unfold format_desc. rewrite Hinfo. unfold ret at 1.
    unfold bind at 1. rewrite Hbuild.
    unfold bind, subprocess.
    destruct (spawn os (launched w2) primary) as [|out rc]; [reflexivity|].
    destruct (rc =? 0)%Z; reflexivity. }
  assert (Hl3 : launched w3 = launched w ++ probes ++ [primary]).
  { unfold w3. cbn [launched]. rewrite Hlaunched. unfold w1.
    cbn [launched]. rewrite <- app_assoc. reflexivity. }
  assert (Hfb : exists success w',
    download_fallback os (normalize_url u) ctype format_type limit w3
    = (Ok success, w') /\
    launched w' = launched w ++ probes ++ [primary; fallback]).
  { eexists _, _. split; [exact Hfallback|]. cbn [launched].
    rewrite Hl3, <- !app_assoc. reflexivity. }
  destruct Hfb as (fsuccess & fw & Hfrun & Hflaunched).
  destruct (spawn os (launched w2) primary) as [|out rc].
  - exists ctype, probes, primary, [fallback], fsuccess, fw.
    rewrite Hdownload. repeat (split; [eauto; fail|]). exact Hflaunched.
  - destruct (rc =? 0)%Z.
    + exists ctype, probes, primary, [], true, w3.
      rewrite Hdownload. repeat (split; [eauto; fail|]). exact Hl3.
    + exists ctype, probes, primary, [fallback], fsuccess, fw.
      rewrite Hdownload. repeat (split; [eauto; fail|]). exact Hflaunched.
Qed.

End DownloadRuns.

(** X14.  When the caller names the content type, [download] does not
    classify: the first process it launches is the full download command,
    followed by at most one fallback command, and no probe. *)
Theorem download_with_given_type_skips_probe
    (os : Env) (u given format_type limit : string) (w : World) :
  Py.truthy given = true ->
  is_Some (supported_formats !! format_type) ->
  exists primary rest,
    is_full_argv (normalize_url u) primary /\
    (rest = [] \/
     exists fallback,
       is_reduced_argv (normalize_url u) fallback /\ rest = [fallback]) /\
    launched (snd (download os u (Some given) format_type limit w))
    = launched w ++ primary :: rest.
Proof.
  intros Hgiven Hfmt.
  destruct (download_trace os u (Some given) format_type limit w Hfmt)
    as (ctype & probes & primary & rest & success & w' & _ & Hskip & Hfull
        & Hrest & Hrun & Hlaunched).
  destruct (Hskip given eq_refl Hgiven) as [_ ->].
  exists primary, rest. rewrite Hrun. cbn [snd].
  split; [exact Hfull|]. split; [exact Hrest | exact Hlaunched].
Qed.

Lemma download_with_given_type_skips_probe_witness :
  exists primary rest,
    is_full_argv (normalize_url "@somechannel") primary /\
    (rest = [] \/
     exists fallback,
       is_reduced_argv (normalize_url "@somechannel") fallback /\
       rest = [fallback]) /\
    launched (snd (download failing_env "@somechannel" (Some "channel")
                     "audio" "3" fresh_world))
    = launched fresh_world ++ primary :: rest.
Proof.
  apply download_with_given_type_skips_probe; [reflexivity|].
  vm_compute. eauto.
Defined.

(** ** The output relay *)

Lemma string_app_assoc (a b c : string) :
  (a +:+ b) +:+ c = a +:+ (b +:+ c).
Proof.
  induction a as [|x a IH]; [reflexivity|].
  rewrite !append_cons, IH. reflexivity.
Qed.

(** A substring of a substring is a substring. *)
Lemma contains_within (inner pre post s : string) :
  Py.contains (pre +:+ inner +:+ post) s = true ->
  Py.contains inner s = true.
Proof.
  rewrite !contains_spec. intros (a & b & ->).
  exists (a +:+ pre), (post +:+ b).
  rewrite !string_app_assoc. reflexivity.
Qed.

Lemma download_marker_implied (line : string) :
  Py.contains "[download]" line = true ->
  Py.contains_any ["download"; "progress"; "ETA"; "%"] line = true.
Proof.
  intros H. unfold Py.contains_any. cbn [existsb].
  rewrite (contains_within "download" "[" "]" line H). reflexivity.
Qed.

(** X15.  The relay of [download] rewrites the current terminal line for
    exactly the lines that, once stripped, contain both "[download]" and
    "%" and, in lower case, neither "[debug]" nor "error"; the separate test
    for the markers 'download', 'progress', 'ETA', '%' never decides this.
    The text written is the stripped line in green after a carriage
    return. *)
Theorem relay_overwrites_progress_only (line text : string) :
  relay_line line = Some (Overwrite text) <->
  Py.contains "[debug]" (Text.lower (Py.strip line)) = false /\
  Py.contains "error" (Text.lower (Py.strip line)) = false /\
  Py.contains "[download]" (Py.strip line) = true /\
  Py.contains "%" (Py.strip line) = true /\
  text = cr +:+ Colors.GREEN +:+ Py.strip line +:+ Colors.ENDC.
Proof.
  unfold relay_line.
  destruct (Py.contains "[debug]" (Text.lower (Py.strip line)));
    [split; [discriminate | intros [H _]; discriminate H]|].
  destruct (Py.contains "error" (Text.lower (Py.strip line)));
    [split; [discriminate | intros (_ & H & _); discriminate H]|].
  destruct (Py.contains "[download]" (Py.strip line)) eqn:Hd.
  - rewrite (download_marker_implied _ Hd).
    destruct (Py.contains "%" (Py.strip line)); cbn [andb].
    + split; [intros [= <-]; auto | intros (_ & _ & _ & _ & ->); reflexivity].
    + split; [discriminate | intros (_ & _ & _ & H & _); discriminate H].
  - cbn [andb].
    destruct (Py.contains_any _ (Py.strip line));
      (split; [discriminate | intros (_ & _ & H & _); discriminate H]).
Qed.

(** X16.  The relay of [download] shows one item per line that is not debug
    output and nothing for a debug line, while the relay of
    [download_fallback] has no such filter and shows every line. *)
Theorem relay_drops_debug_lines_only (lines : list string) :
  length (relay lines)
  = length (List.filter (fun line => negb (debug_line line)) lines) /\
  length (fallback_relay lines) = length lines /\
  Forall (fun line => relay_line line = None <-> debug_line line = true)
         lines.
Proof.
  assert (Hline : forall line,
            relay_line line = None <-> debug_line line = true).
  { intros line. unfold relay_line, debug_line.
    destruct (Py.contains "[debug]" _); [tauto|].
    destruct (Py.contains "error" _); [split; discriminate|].
    destruct (Py.contains_any _ _); [|split; discriminate].
    destruct (_ && _); split; discriminate. }
  assert (Hfallback : forall line, is_Some (fallback_relay_line line)).
  { intros line. unfold fallback_relay_line.
    destruct (Py.contains "error" _); [eauto|].
    destruct (Py.contains_any _ _); [|eauto].
    destruct (_ && _); eauto. }
  split; [|split].
  - unfold relay. induction lines as [|line lines IH]; [reflexivity|].
    cbn [omap list_omap List.filter].
    destruct (relay_line line) as [d|] eqn:Hr.
    + assert (Hd : debug_line line = false).
      { destruct (debug_line line) eqn:Hd; [|reflexivity].
        apply Hline in Hd. congruence. }
      rewrite Hd. cbn [negb length]. rewrite <- IH. reflexivity.
    + apply Hline in Hr. rewrite Hr. cbn [negb]. exact IH.
  - unfold fallback_relay. induction lines as [|line lines IH]; [reflexivity|].
    cbn [omap list_omap]. destruct (Hfallback line) as [d ->].
    cbn [length]. rewrite <- IH. reflexivity.
  - apply Forall_forall. intros line _. apply Hline.
Qed.

(** ** The limit prompt *)

(** Decimal numerals are made of digits only. *)
Lemma pretty_N_go_digits (x : N) (s : string) :
  Forall (fun c => is_Some (Ascii.is_nat c)) (list_ascii_of_string s) ->
  Forall (fun c => is_Some (Ascii.is_nat c))
         (list_ascii_of_string (pretty_N_go x s)).
Proof.
  revert s. induction (N.lt_wf_0 x) as [x _ IH]. intros s Hs.
  assert (x = 0 \/ 0 < x)%N as [-> | Hpos] by lia.
  - rewrite pretty_N_go_0. exact Hs.
  - rewrite pretty_N_go_step by exact Hpos.
    apply IH; [apply N.div_lt; lia|].
    cbn [list_ascii_of_string]. constructor; [|exact Hs].
    assert (Hd : (x `mod` 10 < 10)%N) by (apply N.mod_lt; lia).
    revert Hd. generalize (x `mod` 10)%N. intros d Hd.
    destruct d as [|p]; [vm_compute; eauto|].
    do 4 (try destruct p as [p|p|]); try lia; vm_compute; eauto.
Qed.

Lemma pretty_Z_positive_digits (n : Z) :
  (0 < n)%Z ->
  Forall (fun c => is_Some (Ascii.is_nat c)) (list_ascii_of_string (pretty n)).
Proof.
  destruct n as [|p|p]; try lia. intros _.
  unfold pretty, pretty_Z, pretty, pretty_positive, pretty, pretty_N.
  destruct (decide (N.pos p = 0%N)) as [H|_]; [discriminate H|].
  apply pretty_N_go_digits. constructor.
Qed.

Lemma pretty_Z_positive_not_all (n : Z) :
  (0 < n)%Z -> pretty n <> "all".
Proof.
  intros Hn Heq. pose proof (pretty_Z_positive_digits n Hn) as Hd.
  rewrite Heq in Hd. cbn [list_ascii_of_string] in Hd.
  inversion Hd as [|c l [d Hc] _]. discriminate Hc.
Qed.

Section LimitPrompt.

Variable py_int : string -> option Z.

Lemma ask_for_limit_answer
    (content_type : string) (stdin rest : list string) (limit : string) :
  ask_for_limit py_int content_type stdin = Answer limit rest ->
  (limit = "all" \/ exists n, (0 < n)%Z /\ limit = pretty n) /\
  exists rejected accepted,
    stdin = rejected ++ accepted :: rest /\
    forallb (rejected_limit py_int) rejected = true /\
    rejected_limit py_int accepted = false.
Proof.
  revert rest limit. induction stdin as [|line stdin IH]; intros rest limit.
  - discriminate.
  - cbn [ask_for_limit]. unfold rejected_limit in *.
    destruct ((Text.lower (Py.strip line) =? "")
              || (Text.lower (Py.strip line) =? "all")) eqn:Hall.
    + intros [= <- <-]. split; [auto|].
      exists [], line. rewrite Hall. auto.
    + destruct (py_int (Text.lower (Py.strip line))) as [n|] eqn:Hint.
      * destruct (0 <? n)%Z eqn:Hpos.
        -- intros [= <- <-]. split; [right; exists n; split; [lia | reflexivity]|].
           exists [], line. rewrite Hall, Hint, Hpos. auto.
        -- intros H. destruct (IH _ _ H) as (Hshape & rej & acc & -> & Hrej & Hacc).
           split; [exact Hshape|].
           exists (line :: rej), acc. split; [reflexivity|].
           cbn [forallb]. rewrite Hall, Hint, Hpos, Hrej. auto.
      * intros H. destruct (IH _ _ H) as (Hshape & rej & acc & -> & Hrej & Hacc).
        split; [exact Hshape|].
        exists (line :: rej), acc. split; [reflexivity|].
        cbn [forallb]. rewrite Hall, Hint, Hrej. auto.
Qed.

Lemma ask_for_limit_skip
    (content_type : string) (rejected stdin : list string) :
  forallb (rejected_limit py_int) rejected = true ->
  ask_for_limit py_int content_type (rejected ++ stdin)
  = ask_for_limit py_int content_type stdin.
Proof.
  induction rejected as [|line rejected IH]; [reflexivity|].
  cbn [forallb app ask_for_limit]. intros H.
  apply andb_true_iff in H as [Hline Hrest].
  unfold rejected_limit in Hline.
  apply andb_true_iff in Hline as [Hall Hint].
  apply negb_true_iff in Hall. rewrite Hall.
  destruct (py_int (Text.lower (Py.strip line))) as [n|].
  - apply negb_true_iff in Hint. rewrite Hint. apply IH, Hrest.
  - apply IH, Hrest.
Qed.

End LimitPrompt.

(** X17.  Whatever [int] accepts, an answer of [ask_for_limit] is either
    "all" or the canonical decimal numeral of a positive integer, never
    anything else; and it was obtained by reading, in order, some lines that
    were each rejected and then one line that was accepted, leaving the
    rest of the input unread. *)
Theorem ask_for_limit_returns_all_or_positive
    (py_int : string -> option Z) (content_type : string)
    (stdin rest : list string) (limit : string) :
  ask_for_limit py_int content_type stdin = Answer limit rest ->
  (limit = "all" \/ exists n, (0 < n)%Z /\ limit = pretty n) /\
  exists rejected accepted,
    stdin = rejected ++ accepted :: rest /\
    forallb (rejected_limit py_int) rejected = true /\
    rejected_limit py_int accepted = false.
Proof. apply ask_for_limit_answer. Qed.

Lemma ask_for_limit_returns_all_or_positive_witness :
  ("7" = "all" \/ exists n, (0 < n)%Z /\ "7" = pretty n) /\
  exists rejected accepted,
    ["abc"; "0"; "-3"; " 007 "; "y"] = rejected ++ accepted :: ["y"] /\
    forallb (rejected_limit decimal_int) rejected = true /\
    rejected_limit decimal_int accepted = false.
Proof.
  apply (ask_for_limit_returns_all_or_positive decimal_int "playlist").
  reflexivity.
Defined.

(** X18.  Lines that the prompt rejects (not blank, not "all", and either
    not a number or not positive) are skipped one by one without any other
    effect; if nothing but such lines is left, the prompt ends in
    [EOFError]. *)
Theorem ask_for_limit_skips_rejected
    (py_int : string -> option Z) (content_type : string)
    (rejected stdin : list string) :
  forallb (rejected_limit py_int) rejected = true ->
  ask_for_limit py_int content_type (rejected ++ stdin)
  = ask_for_limit py_int content_type stdin
  /\ ask_for_limit py_int content_type rejected = EOFError.
Proof.
  intros H. split; [apply ask_for_limit_skip, H|].
  rewrite <- (app_nil_r rejected) at 1.
  rewrite (ask_for_limit_skip py_int content_type rejected [] H).
  reflexivity.
Qed.

Lemma ask_for_limit_skips_rejected_witness :
  ask_for_limit decimal_int "channel" (["ten"; "0"; "-1"] ++ ["ALL "; "n"])
  = ask_for_limit decimal_int "channel" ["ALL "; "n"]
  /\ ask_for_limit decimal_int "channel" ["ten"; "0"; "-1"] = EOFError.
Proof.
  apply ask_for_limit_skips_rejected. reflexivity.
Defined.

(** X19.  A limit obtained from the prompt restricts a playlist or channel
    download exactly when it is a number: for the answer "all" the builder
    adds no item range, and for a numeral n it adds "--playlist-items"
    "1-n". *)
Theorem prompted_limit_item_range
    (py_int : string -> option Z) (content_type : string)
    (stdin rest : list string) (limit : string) :
  ask_for_limit py_int content_type stdin = Answer limit rest ->
  content_type = "playlist" \/ content_type = "channel" ->
  (limit = "all" /\ item_range content_type limit = []) \/
  (exists n, (0 < n)%Z /\ limit = pretty n /\
     item_range content_type limit
     = ["--playlist-items"; "1-" +:+ pretty n]).
Proof.
  intros Hask Htype.
  destruct (ask_for_limit_answer py_int _ _ _ _ Hask)
    as [[-> | (n & Hn & ->)] _].
  - left. split; [reflexivity | apply item_range_all].
  - right. exists n. split; [exact Hn|]. split; [reflexivity|].
    unfold item_range. destruct (decide _) as [_ | Hnot]; [reflexivity|].
    exfalso. apply Hnot. split; [exact Htype|].
    apply pretty_Z_positive_not_all, Hn.
Qed.

Lemma prompted_limit_item_range_witness :
  ("25" = "all" /\ item_range "playlist" "25" = []) \/
  (exists n, (0 < n)%Z /\ "25" = pretty n /\
     item_range "playlist" "25" = ["--playlist-items"; "1-" +:+ pretty n]).
Proof.
  apply (prompted_limit_item_range decimal_int "playlist"
           ["none"; "25"; "y"] ["y"]); [reflexivity | auto].
Defined.

(** ** The menu loop *)

Section MenuLoop.

Variable os : Env.
Variable py_int : string -> option Z.

Lemma ask_for_limit_shorter
    (content_type : string) (stdin rest : list string) (limit : string) :
  ask_for_limit py_int content_type stdin = Answer limit rest ->
  length rest < length stdin.
Proof.
  intros H.
  destruct (ask_for_limit_answer py_int _ _ _ _ H)
    as (_ & rejected & accepted & -> & _ & _).
  rewrite length_app. cbn [length]. lia.
Qed.

Lemma extends_refl (w : World) : extends w w.
Proof. exists []. rewrite app_nil_r. reflexivity. Qed.

Lemma extends_trans (w1 w2 w3 : World) :
  extends w1 w2 -> extends w2 w3 -> extends w1 w3.
Proof.
  intros [a Ha] [b Hb]. exists (a ++ b). rewrite Hb, Ha, app_assoc.
  reflexivity.
Qed.

(** Every pass either stops, or goes on with strictly less input; it never
    ends in the [KeyError] of [download], and it only adds to the launch
    log. *)
Lemma run_iteration_cases (stdin : list string) (w : World) :
  match run_iteration os py_int stdin w with
  | Again rest w' => length rest < length stdin /\ extends w w'
  | Quit rest w' => length rest < length stdin /\ extends w w'
  | Eof w' => extends w w'
  | Uncaught _ _ _ => False
  end.
Proof.
  unfold run_iteration.
  destruct stdin as [|choice stdin]; [apply extends_refl|].
  destruct (choice =? "5");
    [split; [cbn [length]; lia | apply extends_refl]|].
  destruct (negb (in_list choice ["1"; "2"; "3"; "4"]));
    [split; [cbn [length]; lia | apply extends_refl]|].
  destruct stdin as [|url_line stdin]; [apply extends_refl|].
  destruct (negb (Py.truthy (Py.strip url_line)));
    [split; [cbn [length]; lia | apply extends_refl]|].
  set (url := normalize_url (Py.strip url_line)).
  destruct (get_content_type_run os url w)
    as (detected & probes & _ & _ & Hclass).
  rewrite Hclass.
  set (w1 := mkWorld (cookie_file w) (files w) (launched w ++ probes)
                     (ticks w)).
  assert (H1 : extends w w1) by (exists probes; reflexivity).
  destruct stdin as [|format_line stdin]; [exact H1|].
  set (content_type := if choice =? "1" then "video"
                       else if choice =? "2" then "playlist"
                       else if choice =? "3" then "channel" else detected).
  set (format_type := if negb (Py.strip format_line =? "2") then "best"
                      else "audio").
  assert (Hfmt : is_Some (supported_formats !! format_type)).
  { unfold format_type. destruct (negb _); vm_compute; eauto. }
  assert (Hlimit : forall limit rest,
    length rest <= length stdin ->
    match
      match download os url (Some content_type) format_type limit w1 with
      | (Ok _, w2) =>
          match rest with
          | [] => Eof w2
          | cont :: rest' =>
              if negb (Text.lower cont =? "y") then Quit rest' w2
              else Again rest' w2
          end
      | (Raise e, w2) => Uncaught e rest w2
      end
    with
    | Again rest' w' | Quit rest' w' =>
        length rest' < length (choice :: url_line :: format_line :: stdin)
        /\ extends w w'
    | Eof w' => extends w w'
    | Uncaught _ _ _ => False
    end).
  { intros limit rest Hlen.
    destruct (download_trace os url (Some content_type) format_type limit
                w1 Hfmt)
      as (ct & pr & primary & more & success & w2 & _ & _ & _ & _ & Hrun
          & Hl).
    rewrite Hrun.
    assert (H2 : extends w w2).
    { apply (extends_trans w w1 w2 H1). eexists. exact Hl. }
    destruct rest as [|cont rest']; [exact H2|].
    cbn [length] in Hlen |- *.
    destruct (negb (Text.lower cont =? "y")); (split; [lia | exact H2]). }
  destruct (in_list content_type ["playlist"; "channel"]).
  - destruct (ask_for_limit py_int content_type stdin) as [limit rest|]
      eqn:Hask; [|exact H1].
    apply Hlimit. apply ask_for_limit_shorter in Hask. lia.
  - apply Hlimit. lia.
Qed.

Lemma run_ends (fuel : nat) (stdin : list string) (w : World) :
  length stdin < fuel ->
  exists r,
    run os py_int fuel stdin w = Some r /\
    extends w (world_of r) /\
    ((exists rest, r = Quit rest (world_of r) /\
                   length rest < length stdin)
     \/ r = Eof (world_of r)).
Proof.
  revert stdin w. induction fuel as [|fuel IH]; intros stdin w Hfuel; [lia|].
  cbn [run].
  pose proof (run_iteration_cases stdin w) as Hcases.
  destruct (run_iteration os py_int stdin w) as [rest w' | rest w' | w' | e rest w'].
  - destruct Hcases as [Hlen Hext].
    destruct (IH rest w' ltac:(lia)) as (r & Hrun & Hext' & Hend).
    exists r. split; [exact Hrun|].
    split; [exact (extends_trans _ _ _ Hext Hext')|].
    destruct Hend as [(rest' & Hr & Hlen') | Hr]; [left | right; exact Hr].
    exists rest'. split; [exact Hr | lia].
  - destruct Hcases as [Hlen Hext].
    eexists. split; [reflexivity|]. split; [exact Hext|].
    left. exists rest. split; [reflexivity | exact Hlen].
  - eexists. split; [reflexivity|]. split; [exact Hcases|].
    right. reflexivity.
  - contradiction.
Qed.

Lemma run_invalid_choices (fuel : nat) (stdin : list string) (w : World) :
  forallb invalid_choice stdin = true ->
  length stdin < fuel ->
  run os py_int fuel stdin w = Some (Eof w).
Proof.
  revert stdin. induction fuel as [|fuel IH]; intros stdin Hinv Hfuel; [lia|].
  destruct stdin as [|choice stdin]; [reflexivity|].
  cbn [forallb] in Hinv. apply andb_true_iff in Hinv as [Hc Hrest].
  cbn [run run_iteration].
  unfold invalid_choice, in_list in Hc. cbn [existsb] in Hc.
  apply negb_true_iff in Hc.
  repeat (apply orb_false_iff in Hc as [? Hc]).
  unfold in_list. cbn [existsb].
  repeat match goal with H : (choice =? _) = false |- _ => rewrite H; clear H end.
  cbn [orb negb]. apply IH; [exact Hrest | cbn [length] in Hfuel; lia].
Qed.

(** A pass that is given a URL classifies it before anything else,
    whatever the menu choice. *)
Lemma run_iteration_classifies
    (choice url_line : string) (stdin : list string) (w : World) :
  in_list choice ["1"; "2"; "3"; "4"] = true ->
  Py.truthy (Py.strip url_line) = true ->
  extends
    (snd (get_content_type os (normalize_url (Py.strip url_line)) w))
    (world_of (run_iteration os py_int (choice :: url_line :: stdin) w)).
Proof.
  intros Hchoice Hurl. cbn [run_iteration].
  assert (H5 : (choice =? "5") = false).
  { destruct (String.eqb_spec choice "5") as [-> |]; [|reflexivity].
    discriminate Hchoice. }
  rewrite H5, Hchoice, Hurl. cbn [negb].
  set (url := normalize_url (Py.strip url_line)).
  destruct (get_content_type_run os url w)
    as (detected & probes & _ & _ & Hclass).
  rewrite Hclass. cbn [snd].
  set (w1 := mkWorld (cookie_file w) (files w) (launched w ++ probes)
                     (ticks w)).
  destruct stdin as [|format_line stdin]; [apply extends_refl|].
  set (content_type := if choice =? "1" then "video"
                       else if choice =? "2" then "playlist"
                       else if choice =? "3" then "channel" else detected).
  set (format_type := if negb (Py.strip format_line =? "2") then "best"
                      else "audio").
  assert (Hfmt : is_Some (supported_formats !! format_type)).
  { unfold format_type. destruct (negb _); vm_compute; eauto. }
  assert (Hlimit : forall limit rest,
    extends w1
      (world_of
         match download os url (Some content_type) format_type limit w1 with
         | (Ok _, w2) =>
             match rest with
             | [] => Eof w2
             | cont :: rest' =>
                 if negb (Text.lower cont =? "y") then Quit rest' w2
                 else Again rest' w2
             end
         | (Raise e, w2) => Uncaught e rest w2
         end)).
  { intros limit rest.
    destruct (download_trace os url (Some content_type) format_type limit
                w1 Hfmt)
      as (ct & pr & primary & more & success & w2 & _ & _ & _ & _ & Hrun
          & Hl).
    rewrite Hrun.
    assert (H2 : extends w1 w2) by (eexists; exact Hl).
    destruct rest as [|cont rest']; [exact H2|].
    destruct (negb (Text.lower cont =? "y")); exact H2. }
  destruct (in_list content_type ["playlist"; "channel"]).
  - destruct (ask_for_limit py_int content_type stdin) as [limit rest|];
      [apply Hlimit | apply extends_refl].
  - apply Hlimit.
Qed.

End MenuLoop.

(** X20.  On any finite input the menu loop ends after at most one pass per
    line, and it only ever adds to the log of launched processes.  When it
    ends because the user left (choice 5, or an answer other than "y" to
    "Download another?"), strictly less input is left than it started with.
    It never ends in the [KeyError] that [download] raises for an
    unsupported format: the menu passes only "best" or "audio". *)
Theorem run_terminates
    (os : Env) (py_int : string -> option Z) (stdin : list string)
    (w : World) :
  exists r,
    run os py_int (S (length stdin)) stdin w = Some r /\
    (exists more, launched (world_of r) = launched w ++ more) /\
    match r with
    | Again _ _ => False
    | Quit rest _ => length rest < length stdin
    | Eof _ => True
    | Uncaught e _ _ => forall key, e <> KeyError key
    end.
Proof.
  destruct (run_ends os py_int (S (length stdin)) stdin w ltac:(lia))
    as (r & Hrun & Hext & Hend).
  exists r. split; [exact Hrun|]. split; [exact Hext|].
  destruct Hend as [(rest & -> & Hlen) | ->]; [exact Hlen | exact I].
Qed.

(** X21.  A session that consists of nothing but invalid menu choices
    (anything other than "1" to "5", compared without stripping) launches
    no process and changes nothing; it ends when the input runs out. *)
Theorem run_ignores_invalid_choices
    (os : Env) (py_int : string -> option Z) (stdin : list string)
    (w : World) :
  forallb invalid_choice stdin = true ->
  run os py_int (S (length stdin)) stdin w = Some (Eof w).
Proof. intros H. apply run_invalid_choices; [exact H | lia]. Qed.

Lemma run_ignores_invalid_choices_witness :
  run failing_env decimal_int 5 ["0"; " 5"; ""; "exit"] fresh_world
  = Some (Eof fresh_world).
Proof.
  apply (run_ignores_invalid_choices failing_env decimal_int
           ["0"; " 5"; ""; "exit"]).
  reflexivity.
Defined.

(** X22.  The menu loop classifies the URL even when the user picked the
    content type (choices 1 to 3): for a channel-like URL without
    "/shorts/" and "/videos" the metadata probe is the first process
    launched, although its answer is not used. *)
Theorem explicit_choice_still_probes
    (os : Env) (py_int : string -> option Z) (choice url_line : string)
    (stdin : list string) (w : World) :
  In choice ["1"; "2"; "3"] ->
  Py.truthy (Py.strip url_line) = true ->
  needs_probe (Py.strip url_line) = true ->
  exists more,
    launched
      (world_of (run_iteration os py_int (choice :: url_line :: stdin) w))
    = launched w
      ++ probe_argv (normalize_url (Py.strip url_line)) :: more.
Proof.
  intros Hchoice Hurl Hprobe.
  assert (Hin : in_list choice ["1"; "2"; "3"; "4"] = true).
  { cbn [In] in Hchoice.
    destruct Hchoice as [<- | [<- | [<- | []]]]; reflexivity. }
  destruct (run_iteration_classifies os py_int choice url_line stdin w
              Hin Hurl) as [more Hmore].
  rewrite get_content_type_world in Hmore. cbn [launched] in Hmore.
  rewrite needs_probe_normalize_url, Hprobe, normalize_url_fixed in Hmore.
  exists more. rewrite Hmore, <- app_assoc. reflexivity.
Qed.

Lemma explicit_choice_still_probes_witness :
  exists more,
    launched
      (world_of (run_iteration failing_env decimal_int
                   ("1" :: " @somechannel " :: ["1"; "n"]) fresh_world))
    = launched fresh_world
      ++ probe_argv (normalize_url (Py.strip " @somechannel ")) :: more.
Proof.
  apply explicit_choice_still_probes; [cbn [In]; auto | reflexivity..].
Defined.

(** ** The fallback command *)

Lemma download_fallback_shape
    (os : Env) (url content_type format_type : string) (w : World) :
  exists audio_options,
    forall limit,
      launched (snd (download_fallback os url content_type format_type
                       limit w))
      = launched w
        ++ [[ "yt-dlp"; "--ignore-errors"; "--format"; "best"; "--output";
              (if content_type =? "video" then
                 downloads_folder +:+ "/%(title)s_fallback_"
                   +:+ strftime_now os (ticks w) timestamp_format
                   +:+ ".%(ext)s"
               else if content_type =? "playlist" then
                 downloads_folder +:+ "/%(playlist_title)s/%(title)s_fallback_"
                   +:+ strftime_now os (ticks w) timestamp_format
                   +:+ ".%(ext)s"
               else
                 downloads_folder +:+ "/%(uploader)s/%(title)s_fallback_"
                   +:+ strftime_now os (ticks w) timestamp_format
                   +:+ ".%(ext)s");
              "--no-overwrites"; "--geo-bypass" ]
            ++ audio_options ++ item_range content_type limit ++ [url]].
Proof.
  exists (if format_type =? "audio"
          then ["--extract-audio"; "--audio-format"; "mp3"] else []).
  intros limit.
  unfold download_fallback, now_strftime, subprocess, tick, bind, ret.
  cbn [cookie_file files launched ticks].
  rewrite item_range_code.
  destruct (spawn os _ _) as [|out rc];
    [|destruct (rc =? 0)%Z];
    cbn [snd launched];
    (destruct (format_type =? "audio");
     [rewrite <- !app_assoc; reflexivity | reflexivity]).
Qed.

(** X23.  The fallback command follows the builder in two respects: it
    carries the same item range (none for "all" or for a video, otherwise
    "--playlist-items" "1-<limit>") just before the URL, and it writes to
    the same directory layout (flat for video, by playlist title, by
    uploader), with "_fallback_" and its own clock reading in the file
    name. *)
Theorem fallback_command_layout
    (os : Env) (url content_type format_type limit : string) (w : World) :
  (exists head,
     launched (snd (download_fallback os url content_type format_type
                      "all" w))
     = launched w ++ [head ++ [url]] /\
     launched (snd (download_fallback os url content_type format_type
                      limit w))
     = launched w ++ [head ++ item_range content_type limit ++ [url]]) /\
  let filename :=
    fallback_filename (strftime_now os (ticks w) timestamp_format) in
  (exists cmd,
     launched (snd (download_fallback os url "video" format_type limit w))
     = launched w ++ [cmd] /\
     nth_error cmd 4 = Some "--output" /\
     nth_error cmd 5 = Some (path_join [downloads_folder; filename])) /\
  (exists cmd,
     launched (snd (download_fallback os url "playlist" format_type limit w))
     = launched w ++ [cmd] /\
     nth_error cmd 4 = Some "--output" /\
     nth_error cmd 5
     = Some (path_join [downloads_folder; "%(playlist_title)s"; filename])) /\
  (exists cmd,
     launched (snd (download_fallback os url "channel" format_type limit w))
     = launched w ++ [cmd] /\
     nth_error cmd 4 = Some "--output" /\
     nth_error cmd 5
     = Some (path_join [downloads_folder; "%(uploader)s"; filename])).
Proof.
  split.
  - destruct (download_fallback_shape os url content_type format_type w)
      as [audio Hshape].
    pose proof (Hshape "all") as Hall. rewrite item_range_all in Hall.
    pose proof (Hshape limit) as Hlimit.
    match type of Hall with
    | _ = _ ++ [?base ++ audio ++ _] => exists (base ++ audio)
    end.
    split.
    + rewrite Hall, <- app_assoc. reflexivity.
    + rewrite Hlimit, <- app_assoc. reflexivity.
  - cbv zeta.
    destruct (download_fallback_shape os url "video" format_type w)
      as [a1 H1].
    destruct (download_fallback_shape os url "playlist" format_type w)
      as [a2 H2].
    destruct (download_fallback_shape os url "channel" format_type w)
      as [a3 H3].
    split; [|split]; eexists;
      (split; [first [apply H1 | apply H2 | apply H3]|]);
      split; reflexivity.
Qed.

(** ** More worked examples *)

(** The markers are case-sensitive: "Downloading" is not 'download'. *)
Example relay_typical_output :
  relay [ "[debug] Command-line config: ['--verbose']";
          "[youtube] abc: Downloading webpage";
          "[download]  42.0% of 10.00MiB at 1.00MiB/s ETA 00:05";
          "ERROR: unable to download video data";
          "[Merger] Merging formats" ]
  = [ Print "[youtube] abc: Downloading webpage";
      Overwrite (cr +:+ Colors.GREEN
                   +:+ "[download]  42.0% of 10.00MiB at 1.00MiB/s ETA 00:05"
                   +:+ Colors.ENDC);
      Print (Colors.RED +:+ "ERROR: unable to download video data"
               +:+ Colors.ENDC);
      Print "[Merger] Merging formats" ].
Proof. vm_compute. reflexivity. Qed.

Example limit_prompt_session :
  ask_for_limit decimal_int "playlist" ["lots"; "0"; " 12 "; "y"]
  = Answer "12" ["y"].
Proof. reflexivity. Qed.

(** Auto-detect a handle, audio only, both attempts fail, do not go on:
    a probe, the full command and the fallback command were launched. *)
Example menu_session :
  match run failing_env decimal_int 6 ["4"; "@somechannel"; "2"; "n"; "5"]
          fresh_world with
  | Some (Quit rest w) =>
      rest = ["5"] /\ length (launched w) = 3 /\
      head (launched w)
      = Some (probe_argv "https://www.youtube.com/@somechannel")
  | _ => False
  end.
Proof. vm_compute. auto. Qed.
